(** * In-context-learning notebook: discovery, extraction, summarization, rendering

  A shallow embedding of [in-context-learning/in-context-learning.ipynb].
  The notebook is a straight-line pipeline of cells acting on a handful of
  global variables, the working directory and three external services
  (the listing page, the PDF host and the hosted language model).

  - Python [str] is [string]; a character is one code point below 256.
  - A paper is a Python [dict] with string keys and values: [gmap string string].
  - The parsed markup (a [BeautifulSoup] tree) is an inductive type.
  - Cells are computations in a state-and-exception monad over the notebook
    state; the external services are parameters of the development. *)

From Stdlib Require Import Ascii.
From stdpp Require Import gmap strings list fin_maps.

(** ** Python string methods *)

Module PyStr.

Definition LF : ascii := "010"%char.
Definition CR : ascii := "013"%char.

(** [str.splitlines] boundaries: LF, VT, FF, CR, FS, GS, RS, NEL. *)
Definition is_linebreak (c : ascii) : bool :=
  match c with
  | "010" | "011" | "012" | "013" | "028" | "029" | "030" | "133" => true
  | _ => false
  end%char.

(** [str.isspace] on one character: what [str.strip()] removes. *)
Definition isspace (c : ascii) : bool :=
  match c with
  | "009" | "010" | "011" | "012" | "013"
  | "028" | "029" | "030" | "031" | " " | "133" | "160" => true
  | _ => false
  end%char.

Fixpoint lstrip (s : string) : string :=
  match s with
  | "" => ""
  | String c s' => if isspace c then lstrip s' else s
  end.

Fixpoint rstrip (s : string) : string :=
  match s with
  | "" => ""
  | String c s' =>
      match rstrip s' with
      | "" => if isspace c then "" else String c ""
      | r => String c r
      end
  end.

(** [s.strip()] *)
Definition strip (s : string) : string := rstrip (lstrip s).

(** [s.splitlines()]: a line ends at every boundary character, CR LF counts
    as one boundary, and an empty remainder after the last boundary is not
    a line. *)
Fixpoint splitlines (s : string) : list string :=
  match s with
  | "" => []
  | String c s' =>
      if is_linebreak c then
        "" :: match s' with
              | String c' s'' =>
                  if Ascii.eqb c CR && Ascii.eqb c' LF
                  then splitlines s'' else splitlines s'
              | "" => []
              end
      else
        match splitlines s' with
        | [] => [String c ""]
        | l :: ls => String c l :: ls
        end
  end.

(** [s.split(sep)] for a non-empty [sep]: [skip] counts the characters of a
    separator occurrence that are still to be passed over. *)
Fixpoint split_go (sep : string) (skip : nat) (s : string) : list string :=
  match s with
  | "" => [""]
  | String c s' =>
      match skip with
      | S k => split_go sep k s'
      | O =>
          if String.prefix sep s
          then "" :: split_go sep (String.length sep - 1) s'
          else match split_go sep 0 s' with
               | [] => [String c ""]
               | p :: ps => String c p :: ps
               end
      end
  end.

Definition split (sep s : string) : list string := split_go sep 0 s.

(** [s.replace(old, new)] for a non-empty [old]: occurrences are replaced
    from left to right, without overlap. *)
Fixpoint replace_go (old new : string) (skip : nat) (s : string) : string :=
  match s with
  | "" => ""
  | String c s' =>
      match skip with
      | S k => replace_go old new k s'
      | O =>
          if String.prefix old s
          then new +:+ replace_go old new (String.length old - 1) s'
          else String c (replace_go old new 0 s')
      end
  end.

Definition replace (old new s : string) : string := replace_go old new 0 s.

(** [sep.join(xs)] *)
Definition join (sep : string) (xs : list string) : string :=
  String.concat sep xs.

Fixpoint count_char (c : ascii) (s : string) : nat :=
  match s with
  | "" => 0
  | String c' s' => (if Ascii.eqb c c' then 1 else 0) + count_char c s'
  end.

Fixpoint all_chars (P : ascii → bool) (s : string) : bool :=
  match s with
  | "" => true
  | String c s' => P c && all_chars P s'
  end.

Definition first_char (s : string) : option ascii :=
  match s with "" => None | String c _ => Some c end.

Fixpoint last_char (s : string) : option ascii :=
  match s with
  | "" => None
  | String c "" => Some c
  | String _ s' => last_char s'
  end.

End PyStr.

(** ** The parsed markup ([bs4]) *)

Module Bs4.

(** A [PageElement].  A string node records whether its class is one that
    [get_text] collects ([NavigableString], [CData]) or one it skips
    ([Comment], [Doctype], [Script], [Stylesheet], ...).  A [Tag] has a
    name, its [attrs] dictionary and its [contents]. *)
#[warnings="-register-all"]
Inductive node :=
| NavigableString (plain : bool) (s : string)
| Tag (name : string) (attrs : gmap string string) (contents : list node).

(** [tag.descendants]: every node below [tag], in document order. *)
Fixpoint descendants (n : node) : list node :=
  match n with
  | NavigableString _ _ => []
  | Tag _ _ cs =>
      (fix go (l : list node) : list node :=
         match l with
         | [] => []
         | c :: l' => c :: descendants c ++ go l'
         end) cs
  end.

(** The descendants of a node whose [contents] are [cs]; the
    [BeautifulSoup] object itself is such a node, named "[document]". *)
Fixpoint forest_descendants (cs : list node) : list node :=
  match cs with
  | [] => []
  | c :: cs' => c :: descendants c ++ forest_descendants cs'
  end.

Definition is_tag_named (names : list string) (n : node) : bool :=
  match n with
  | NavigableString _ _ => false
  | Tag nm _ _ => bool_decide (nm ∈ names)
  end.

(** [x.find_all(names)] where [cs] are the contents of [x]. *)
Definition find_all (names : list string) (cs : list node) : list node :=
  List.filter (is_tag_named names) (forest_descendants cs).

(** [tag.find(name)]: the first match of [find_all], or [None]. *)
Definition find (name : string) (n : node) : option node :=
  match n with
  | NavigableString _ _ => None
  | Tag _ _ cs => head (find_all [name] cs)
  end.

Definition string_of (n : node) : string :=
  match n with
  | NavigableString true s => s
  | _ => ""
  end.

(** [x.get_text()], also [x.text]: the collected strings below [x],
    concatenated without a separator. *)
Definition get_text (cs : list node) : string :=
  String.concat "" (string_of <$> forest_descendants cs).

Definition text (n : node) : string :=
  match n with
  | NavigableString _ s => s
  | Tag _ _ cs => get_text cs
  end.

(** The tree left by [for t in soup(names): t.extract()]: every element
    with one of the names is detached, with all that is below it. *)
Fixpoint extract_node (names : list string) (n : node) : option node :=
  match n with
  | NavigableString _ _ => Some n
  | Tag nm attrs cs =>
      if bool_decide (nm ∈ names) then None
      else Some (Tag nm attrs
             ((fix go (l : list node) : list node :=
                 match l with
                 | [] => []
                 | c :: l' =>
                     match extract_node names c with
                     | Some c' => c' :: go l'
                     | None => go l'
                     end
                 end) cs))
  end.

Fixpoint extract_all (names : list string) (cs : list node) : list node :=
  match cs with
  | [] => []
  | c :: cs' =>
      match extract_node names c with
      | Some c' => c' :: extract_all names cs'
      | None => extract_all names cs'
      end
  end.

(** The strings of a forest that [get_text] would collect, each with the
    names of the elements it lies in (innermost first). *)
Fixpoint strings_under (anc : list string) (n : node) : list (list string * string) :=
  match n with
  | NavigableString plain s => if plain then [(anc, s)] else []
  | Tag nm _ cs =>
      (fix go (l : list node) : list (list string * string) :=
         match l with
         | [] => []
         | c :: l' => strings_under (nm :: anc) c ++ go l'
         end) cs
  end.

Fixpoint forest_strings (anc : list string) (cs : list node) : list (list string * string) :=
  match cs with
  | [] => []
  | c :: cs' => strings_under anc c ++ forest_strings anc cs'
  end.

(** The text contributed by one node: its own string and those below it. *)
Definition node_text (n : node) : string :=
  String.concat "" (string_of <$> (n :: descendants n)).

(** Induction on a node, with the property for all its contents. *)
Section node_induction.
Variable P : node → Prop.
Hypothesis Hstr : ∀ b s, P (NavigableString b s).
Hypothesis Htag : ∀ nm attrs cs, Forall P cs → P (Tag nm attrs cs).

Fixpoint node_forall_ind (n : node) : P n :=
  match n with
  | NavigableString b s => Hstr b s
  | Tag nm attrs cs =>
      Htag nm attrs cs
        ((fix go (l : list node) : Forall P l :=
            match l with
            | [] => @List.Forall_nil node P
            | c :: l' => @List.Forall_cons node P c l' (node_forall_ind c) (go l')
            end) cs)
  end.
End node_induction.

End Bs4.

(** ** Exceptions, the notebook state and its monad *)

Inductive exn :=
| KeyError (key : string)
| AttributeError (attr : string)
| TypeError
| IndexError
| FileNotFoundError (path : string)
| ServiceError (what : string).

Inductive result (A : Type) :=
| Ok (a : A)
| Raise (e : exn).
Arguments Ok {A} a.
Arguments Raise {A} e.

(** A request sent to the outside, as recorded in the trace of a run. *)
Inductive call :=
| HttpGet (url : string)
| UrlOpen (url : string)
| UrlRetrieve (url filename : string)
| GenerateContent (model prompt : string).

Abbreviation dict := (gmap string string).

(** The line feed, Python's ["\n"], and the double quote as strings. *)
Definition NL : string := String PyStr.LF "".
Definition DQ : string := String "034"%char "".

(** The global variable [papers], the files of the working directory, the
    Markdown objects displayed so far, the lines that [print] has written to
    standard output so far, the trace of outside calls, and the outside
    itself: the state of the network, of the model service and of the
    clock.  Standard error is not part of the state. *)
Record notebook (World : Type) := Notebook {
  papers : list dict;
  files : gmap string string;
  display_data : list string;
  stdout : list string;
  calls : list call;
  world : World
}.
Arguments Notebook {World}.
Arguments papers {World}.
Arguments files {World}.
Arguments display_data {World}.
Arguments stdout {World}.
Arguments calls {World}.
Arguments world {World}.

(** The outside services.  A call to the outside returns a value or raises,
    and moves the outside to a new state. *)
Record services (World Page : Type) := Services {
  (** [requests.get(url).content] *)
  requests_get : string → World → result string * World;
  (** [urlopen(url).read()] *)
  urlopen_read : string → World → result string * World;
  (** The body that [urlretrieve(url, _)] downloads. *)
  urlretrieve_body : string → World → result string * World;
  (** What a download that raises has already written: [urlretrieve] opens
      the connection, then opens the file for writing and copies the body
      block by block, so it is nothing when the download raises before the
      file is opened, and the bytes copied so far when it raises later. *)
  urlretrieve_partial : string → World → option string;
  (** [genai.GenerativeModel(name).generate_content(prompt).text] *)
  generate_content_text : string → string → World → result string * World;
  (** [str(date.today())] *)
  date_today : World → string;
  (** [BeautifulSoup(markup, "html.parser")]: the contents of the soup. *)
  html_parser : string → list Bs4.node;
  (** [PdfReader(path).pages] on the bytes of the file, and
      [page.extract_text()]. *)
  pdf_pages : string → result (list Page);
  extract_text : Page → result string
}.
Arguments requests_get {World Page}.
Arguments urlopen_read {World Page}.
Arguments urlretrieve_body {World Page}.
Arguments urlretrieve_partial {World Page}.
Arguments generate_content_text {World Page}.
Arguments date_today {World Page}.
Arguments html_parser {World Page}.
Arguments pdf_pages {World Page}.
Arguments extract_text {World Page}.

Section Notebook.

Context {World Page : Type} (env : services World Page).

Abbreviation notebook := (notebook World).

Definition set_papers (ps : list dict) (s : notebook) : notebook :=
  Notebook ps (files s) (display_data s) (stdout s) (calls s) (world s).
Definition set_files (fs : gmap string string) (s : notebook) : notebook :=
  Notebook (papers s) fs (display_data s) (stdout s) (calls s) (world s).
Definition set_display_data (d : list string) (s : notebook) : notebook :=
  Notebook (papers s) (files s) d (stdout s) (calls s) (world s).
Definition set_stdout (o : list string) (s : notebook) : notebook :=
  Notebook (papers s) (files s) (display_data s) o (calls s) (world s).
Definition set_outside (cs : list call) (w : World) (s : notebook) : notebook :=
  Notebook (papers s) (files s) (display_data s) (stdout s) cs w.

Definition M (A : Type) : Type := notebook → result A * notebook.

Definition ret {A} (a : A) : M A := λ s, (Ok a, s).
Definition raise {A} (e : exn) : M A := λ s, (Raise e, s).
Definition bind {A B} (m : M A) (k : A → M B) : M B :=
  λ s, match m s with
       | (Ok a, s') => k a s'
       | (Raise e, s') => (Raise e, s')
       end.
(** [try: m  except: h], with a bare [except] clause. *)
Definition try_except {A} (m h : M A) : M A :=
  λ s, match m s with
       | (Ok a, s') => (Ok a, s')
       | (Raise _, s') => h s'
       end.
(** [m], and the clean-up [h] when [m] raises; the exception goes on. *)
Definition on_raise {A} (m : M A) (h : M unit) : M A :=
  λ s, match m s with
       | (Ok a, s') => (Ok a, s')
       | (Raise e, s') => (Raise e, snd (h s'))
       end.
Definition gets {A} (f : notebook → A) : M A := λ s, (Ok (f s), s).
Definition modify (f : notebook → notebook) : M unit := λ s, (Ok tt, f s).
Definition lift {A} (r : result A) : M A := λ s, (r, s).

Notation "x <- m ;; k" := (bind m (λ x, k))
  (at level 100, m at next level, right associativity).
Notation "m ;; k" := (bind m (λ _, k))
  (at level 100, right associativity).

(** [for x in xs: body(x)] *)
Fixpoint for_ {X} (xs : list X) (body : X → M unit) : M unit :=
  match xs with
  | [] => ret tt
  | x :: xs' => body x ;; for_ xs' body
  end.

(** A call to the outside: it is appended to the trace. *)
Definition outside {A} (c : call) (f : World → result A * World) : M A :=
  λ s, let '(r, w) := f (world s) in (r, set_outside (calls s ++ [c]) w s).

(** [d[k]] on a dict. *)
Definition getitem (d : dict) (k : string) : M string :=
  match d !! k with
  | Some v => ret v
  | None => raise (KeyError k)
  end.

(** [with open(path, "w") as f: f.write(data)] *)
Definition open_w_write (path data : string) : M unit :=
  modify (λ s, set_files (<[path := data]> (files s)) s).

(** [with open(path, "a") as f: f.write(data)] *)
Definition open_a_write (path data : string) : M unit :=
  modify (λ s, set_files (<[path := default "" (files s !! path) +:+ data]> (files s)) s).

Definition print (line : string) : M unit :=
  modify (λ s, set_stdout (stdout s ++ [line]) s).

(** ** Cell 5: discovery *)

Definition BASE_URL : string := "https://huggingface.co/papers".

(** [a.text] where [a] is the value of [h3.find("a")]. *)
Definition dot_text (a : option Bs4.node) : M string :=
  match a with
  | Some n => ret (Bs4.text n)
  | None => raise (AttributeError "text")
  end.

(** [a[key]] where [a] is the value of [h3.find("a")]. *)
Definition tag_getitem (a : option Bs4.node) (key : string) : M string :=
  match a with
  | Some (Bs4.Tag _ attrs _) =>
      match attrs !! key with
      | Some v => ret v
      | None => raise (KeyError key)
      end
  | _ => raise TypeError
  end.

Definition papers_append (p : dict) : M unit :=
  modify (λ s, set_papers (papers s ++ [p]) s).

Definition discover (h3 : Bs4.node) : M unit :=
  let a := Bs4.find "a" h3 in
  title <- dot_text a ;;
  href <- tag_getitem a "href" ;;
  let link := PyStr.replace "/papers" "" href in
  papers_append (<["url" := "https://arxiv.org/pdf" +:+ link]> (<["title" := title]> ∅)).

Definition cell5 : M unit :=
  page <- outside (HttpGet BASE_URL) (requests_get env BASE_URL) ;;
  let soup := html_parser env page in
  let h3s := Bs4.find_all ["h3"] soup in
  modify (set_papers []) ;;
  for_ h3s discover.

(** ** Cell 7: text extraction *)

Definition extract_paper (url : string) : M string :=
  html <- outside (UrlOpen url) (urlopen_read env url) ;;
  let soup := html_parser env html in
  let soup := Bs4.extract_all ["script"; "style"] soup in
  let text := Bs4.get_text soup in
  let lines := PyStr.strip <$> PyStr.splitlines text in
  let chunks := lines ≫= (λ line, PyStr.strip <$> PyStr.split "  " line) in
  let text := PyStr.join NL (List.filter (λ chunk, negb (String.eqb chunk "")) chunks) in
  ret text.

(** [urlretrieve(url, filename)]: [filename] is opened with mode "wb" once
    the connection is open, so a download that raises half-way leaves in it
    the bytes copied so far. *)
Definition urlretrieve (url filename : string) : M unit :=
  partial <- gets (λ s, urlretrieve_partial env url (world s)) ;;
  body <- on_raise (outside (UrlRetrieve url filename) (urlretrieve_body env url))
            (match partial with
             | Some bytes => open_w_write filename bytes
             | None => ret tt
             end) ;;
  open_w_write filename body.

Definition PdfReader (path : string) : M (list Page) :=
  fs <- gets files ;;
  match fs !! path with
  | Some data => lift (pdf_pages env data)
  | None => raise (FileNotFoundError path)
  end.

(** [for page in reader.pages: text += page.extract_text() + "\n"] *)
Fixpoint read_pages (pages : list Page) (text : string) : M string :=
  match pages with
  | [] => ret text
  | page :: rest =>
      t <- lift (extract_text env page) ;;
      read_pages rest (text +:+ (t +:+ NL))
  end.

Definition extract_pdf (url : string) : M string :=
  urlretrieve url "pdf_file.pdf" ;;
  pages <- PdfReader "pdf_file.pdf" ;;
  read_pages pages "".

(** [display(Markdown(string))] *)
Definition printmd (string : string) : M unit :=
  modify (λ s, set_display_data (display_data s ++ [string]) s).

(** ** Cells 8 and 10: summarization *)

Definition LLM : string := "gemini-1.5-flash".

Definition INSTRUCTION : string :=
  "Summarize this research article into one paragraph without formatting highlighting its strengths and weaknesses. ".

(** [paper[key]] for the [i]-th element [paper] of [papers]. *)
Definition paper_getitem (i : nat) (key : string) : M string :=
  ps <- gets papers ;;
  match ps !! i with
  | Some paper => getitem paper key
  | None => raise IndexError
  end.

(** [paper[key] = v] for the [i]-th element [paper] of [papers]. *)
Definition paper_setitem (i : nat) (key v : string) : M unit :=
  modify (λ s, set_papers (alter (<[key := v]>) i (papers s)) s).

(** The [try] suite of the loop body. *)
Definition generate_summary (i : nat) : M unit :=
  url <- paper_getitem i "url" ;;
  text <- extract_pdf url ;;
  let prompt := INSTRUCTION +:+ text in
  summary <- outside (GenerateContent LLM prompt) (generate_content_text env LLM prompt) ;;
  paper_setitem i "summary" summary.

(** The [except] suite of the loop body. *)
Definition generation_failed (i : nat) : M unit :=
  print "Generation failed" ;;
  paper_setitem i "summary" "Paper not available".

Definition summarize (i : nat) : M unit :=
  try_except (generate_summary i) (generation_failed i).

(** [for paper in tqdm(papers): ...].  Discovery appends a new dict for each
    heading, so no two elements of [papers] are the same object, and the
    loop is taken by position: the pass for position [i] reads and updates
    the [i]-th paper in place.  [tqdm] hands the papers on one by one and
    draws its progress bar on standard error, which the state leaves out. *)
Definition cell10 : M unit :=
  ps <- gets papers ;;
  for_ (seq 0 (length ps)) summarize.

(** ** Cell 12: the HTML file *)

Definition html_block (paper : dict) : M string :=
  url <- getitem paper "url" ;;
  title <- getitem paper "title" ;;
  summary <- getitem paper "summary" ;;
  ret ("<h2><a href=" +:+ DQ +:+ url +:+ DQ +:+ ">" +:+ title
       +:+ "</a></h2> <p>" +:+ summary +:+ "</p>").

Definition cell12 : M unit :=
  today <- gets (λ s, date_today env (world s)) ;;
  let page := "<html> <head> <h1>Daily Dose of AI Research</h1> <h4>" +:+ today
              +:+ "</h4> <p><i>Summaries generated with: " +:+ LLM +:+ "</i>" in
  open_w_write "papers.html" page ;;
  ps <- gets papers ;;
  for_ ps (λ paper,
    page <- html_block paper ;;
    open_a_write "papers.html" page) ;;
  let end_ := "</head>  </html>" in
  open_a_write "papers.html" end_.

(** ** Cell 14: the Markdown display *)

Definition markdown_record (paper : dict) : M string :=
  title <- getitem paper "title" ;;
  url <- getitem paper "url" ;;
  summary <- getitem paper "summary" ;;
  ret ("**[" +:+ title +:+ "](" +:+ url +:+ ")**<br>" +:+ summary +:+ "<br><br>").

Definition cell14 : M unit :=
  ps <- gets papers ;;
  for_ ps (λ paper,
    string <- markdown_record paper ;;
    printmd string).

End Notebook.

(** ** Vocabulary of the properties *)

(** [old] occurs somewhere in [s]. *)
Fixpoint occurs (old s : string) : bool :=
  String.prefix old s ||
  match s with
  | "" => false
  | String _ s' => occurs old s'
  end.

Definition not_space (c : option ascii) : bool :=
  match c with
  | Some c => negb (PyStr.isspace c)
  | None => true
  end.

(** A line is trimmed when it neither starts nor ends with white space. *)
Definition trimmed (line : string) : bool :=
  not_space (PyStr.first_char line) && not_space (PyStr.last_char line).

Definition no_linebreak (s : string) : bool :=
  PyStr.all_chars (λ c, negb (PyStr.is_linebreak c)) s.

(** A collected string lies outside every element with one of the names. *)
Definition outside_of (names : list string) (e : list string * string) : bool :=
  forallb (λ a, negb (bool_decide (a ∈ names))) e.1.

(** The text of the strings that lie outside every element with one of the
    names, in document order. *)
Definition visible_text (names : list string) (soup : list Bs4.node) : string :=
  String.concat "" (snd <$> List.filter (outside_of names) (Bs4.forest_strings [] soup)).

(** The text and the [href] of the first anchor of a heading, when it has
    both. *)
Definition heading_anchor (h3 : Bs4.node) : option (string * string) :=
  match Bs4.find "a" h3 with
  | Some (Bs4.Tag _ attrs cs) => (λ href, (Bs4.get_text cs, href)) <$> attrs !! "href"
  | _ => None
  end.

(** [paper] is the record that discovery builds from the heading [h3]. *)
Definition listing_record (h3 : Bs4.node) (paper : dict) : Prop :=
  ∃ title href,
    heading_anchor h3 = Some (title, href) ∧
    paper = <["url" := "https://arxiv.org/pdf" +:+ PyStr.replace "/papers" "" href]>
              (<["title" := title]> ∅) ∧
    ∀ suffix, href = "/papers" +:+ suffix → occurs "/papers" suffix = false →
      paper !! "url" = Some ("https://arxiv.org/pdf" +:+ suffix).

(** The path suffix in the words of the specification: the [href] with the
    leading [segment] taken away, and nothing else. *)
Definition without_leading (segment href : string) : string :=
  if String.prefix segment href
  then String.substring (String.length segment)
         (String.length href - String.length segment) href
  else href.

(** The instruction in the words of the specification. *)
Definition stated_instruction : string :=
  "Summarize this research article into one paragraph without formatting, highlighting strengths and weaknesses.".

(** A paper is finished when it holds a title, a url and a summary. *)
Definition finished (paper : dict) : bool :=
  bool_decide (is_Some (paper !! "title") ∧ is_Some (paper !! "url") ∧
               is_Some (paper !! "summary")).

Definition html_block_of (paper : dict) (block : string) : Prop :=
  ∃ title url summary,
    paper !! "title" = Some title ∧ paper !! "url" = Some url ∧
    paper !! "summary" = Some summary ∧
    block = "<h2><a href=" +:+ DQ +:+ url +:+ DQ +:+ ">" +:+ title
            +:+ "</a></h2> <p>" +:+ summary +:+ "</p>".

Definition markdown_record_of (paper : dict) (record : string) : Prop :=
  ∃ title url summary,
    paper !! "title" = Some title ∧ paper !! "url" = Some url ∧
    paper !! "summary" = Some summary ∧
    record = "**[" +:+ title +:+ "](" +:+ url +:+ ")**<br>" +:+ summary +:+ "<br><br>".

Definition html_header (today : string) : string :=
  "<html> <head> <h1>Daily Dose of AI Research</h1> <h4>" +:+ today
  +:+ "</h4> <p><i>Summaries generated with: " +:+ "gemini-1.5-flash" +:+ "</i>".

Definition html_footer : string := "</head>  </html>".

(** The notebook state when the summarization loop reaches the paper at
    position [i]. *)
Definition before_iteration {World Page} (env : services World Page) (i : nat)
    (s : notebook World) : notebook World :=
  snd (for_ (seq 0 i) (summarize env) s).

(** A computation leaves an observation of the state unchanged. *)
Definition preserves {World A X} (f : notebook World → X) (m : M A) : Prop :=
  ∀ s, f (snd (m s)) = f s.

(** A computation commutes with a change [t] of the state that it neither
    reads nor overwrites. *)
Definition commutes {World A} (t : notebook World → notebook World) (m : M A) : Prop :=
  ∀ s, m (t s) = (fst (m s), t (snd (m s))).

(** ** A sample run *)

Module Sample.

Definition h3 (href title : string) : Bs4.node :=
  Bs4.Tag "h3" ∅
    [Bs4.Tag "a" {[ "href" := href ]} [Bs4.NavigableString true title]].

Definition listing : list Bs4.node :=
  [Bs4.Tag "main" ∅
     [h3 "/papers/1234" "Foo"; h3 "/papers/404" "Bar";
      h3 "/papers/5678" "Baz"; h3 "/papers/9012" "Qux"]].

Definition odd_listing : list Bs4.node :=
  [Bs4.Tag "main" ∅ [h3 "/papers/papers/1234" "Foo"]].

Definition article : list Bs4.node :=
  [Bs4.Tag "html" ∅
     [Bs4.Tag "head" ∅
        [Bs4.Tag "style" ∅ [Bs4.NavigableString true "p { margin: 0 }"];
         Bs4.Tag "script" ∅ [Bs4.NavigableString true "var  x = 1;"]];
      Bs4.Tag "body" ∅
        [Bs4.Tag "h1" ∅ [Bs4.NavigableString true ("  A Title  " +:+ NL)];
         Bs4.NavigableString false "a comment";
         Bs4.Tag "p" ∅
           [Bs4.NavigableString true
              (NL +:+ " first  second " +:+ NL +:+ NL +:+ "third" +:+ NL)]]]].

(** The outside counts the calls made to the model so far; the model fails
    on its second call, the PDF host has no document 404, and every PDF has
    the two pages "Hello" and "World". *)
Definition env (soup : list Bs4.node) : services nat string :=
  {| requests_get := λ _ w, (Ok "<listing>", w);
     urlopen_read := λ _ w, (Ok "<article>", w);
     urlretrieve_body := λ url w,
       if String.eqb url "https://arxiv.org/pdf/404"
       then (Raise (ServiceError "HTTP Error 404"), w)
       else (Ok "%PDF-1.7", w);
     urlretrieve_partial := λ _ _, None;
     generate_content_text := λ _ _ w,
       if Nat.eqb w 1 then (Raise (ServiceError "quota exceeded"), S w)
       else (Ok "A good paper.", S w);
     date_today := λ _, "2024-11-05";
     html_parser := λ markup,
       if String.eqb markup "<listing>" then soup else article;
     pdf_pages := λ _, Ok ["Hello"; "World"];
     extract_text := λ page, Ok page |}.

Definition fresh : notebook nat := Notebook [] ∅ [] [] [] 0.

Definition discovered : notebook nat := snd (cell5 (env listing) fresh).

Definition summarized : notebook nat := snd (cell10 (env listing) discovered).

Definition stale : notebook nat :=
  set_files (<["papers.html" := "<html>yesterday</html>"]> (files summarized)) summarized.

Definition Foo : dict :=
  <["url" := "https://arxiv.org/pdf/1234"]> (<["title" := "Foo"]> ∅).
Definition Bar : dict :=
  <["url" := "https://arxiv.org/pdf/404"]> (<["title" := "Bar"]> ∅).
Definition Baz : dict :=
  <["url" := "https://arxiv.org/pdf/5678"]> (<["title" := "Baz"]> ∅).

Definition two_pages : string := "Hello" +:+ NL +:+ "World" +:+ NL.

(** A notebook whose only paper carries, in its summary, the markup that
    closes a block and opens the block of another paper; and the notebook
    that holds the two papers. *)
Definition injected : notebook nat :=
  Notebook
    [<["summary" := "A good paper.</p><h2><a href=" +:+ DQ
                    +:+ "https://arxiv.org/pdf/404" +:+ DQ
                    +:+ ">Bar</a></h2> <p>Paper not available"]> Foo]
    ∅ [] [] [] 0.

Definition two_papers : notebook nat :=
  Notebook
    [<["summary" := "A good paper."]> Foo; <["summary" := "Paper not available"]> Bar]
    ∅ [] [] [] 0.

End Sample.

(** ** Further vocabulary *)

(** The first of [keys] that [paper] lacks. *)
Definition first_missing (keys : list string) (paper : dict) : option string :=
  List.find (λ k, bool_decide (paper !! k = None)) keys.

(** A request of the kind that the summarization loop sends: a download to
    pdf_file.pdf, or a prompt to the model that starts with the instruction. *)
Definition summarization_call (c : call) : bool :=
  match c with
  | UrlRetrieve _ filename => String.eqb filename "pdf_file.pdf"
  | GenerateContent model prompt =>
      String.eqb model "gemini-1.5-flash" && String.prefix INSTRUCTION prompt
  | _ => false
  end.

(** The characters of [s] that are not white space, in order. *)
Fixpoint non_blank (s : string) : string :=
  match s with
  | "" => ""
  | String c s' => if PyStr.isspace c then non_blank s' else String c (non_blank s')
  end.

(** The first [n] characters of [s] are white space. *)
Fixpoint leading_spaces (n : nat) (s : string) : bool :=
  match n, s with
  | O, _ => true
  | S _, "" => false
  | S k, String c s' => PyStr.isspace c && leading_spaces k s'
  end.

(** The number of positions of [s] at which [pat] starts. *)
Fixpoint occurrences (pat s : string) : nat :=
  (if String.prefix pat s then 1 else 0) +
  match s with
  | "" => 0
  | String _ s' => occurrences pat s'
  end.

(** The text with which the block of a paper opens in papers.html. *)
Definition block_opening : string := "<h2><a href=" +:+ DQ.

(** A text without the character that opens a tag. *)
Definition markup_free (s : string) : bool :=
  PyStr.all_chars (λ c, negb (Ascii.eqb c "<")) s.

(** A paper whose title, url and summary are free of markup. *)
Definition paper_markup_free (paper : dict) : bool :=
  forallb (λ key, from_option markup_free true (paper !! key))
    ["title"; "url"; "summary"].

(** ** Further sample inputs *)

Module Scenario.

(** A listing whose second heading has no anchor, and one whose second
    heading has an anchor without [href]. *)
Definition plain_heading : Bs4.node :=
  Bs4.Tag "h3" ∅ [Bs4.NavigableString true "Trending today"].

Definition bare_anchor_heading : Bs4.node :=
  Bs4.Tag "h3" ∅ [Bs4.Tag "a" ∅ [Bs4.NavigableString true "Bar"]].

Definition broken_listing : list Bs4.node :=
  [Bs4.Tag "main" ∅
     [Sample.h3 "/papers/1234" "Foo"; plain_heading; Sample.h3 "/papers/9012" "Qux"]].

Definition external_heading : Bs4.node :=
  Sample.h3 "https://example.org/blog" "Blog".

(** A page that holds the text extracted from [Sample.article], and a page
    that holds white space only outside its script. *)
Definition cleaned : list Bs4.node :=
  [Bs4.Tag "pre" ∅
     [Bs4.NavigableString true
        ("A Title" +:+ NL +:+ "first" +:+ NL +:+ "second" +:+ NL +:+ "third")]].

Definition blank : list Bs4.node :=
  [Bs4.Tag "body" ∅
     [Bs4.Tag "script" ∅ [Bs4.NavigableString true "var x;"];
      Bs4.NavigableString true ("  " +:+ NL +:+ String "009"%char " ");
      Bs4.Tag "p" ∅ [Bs4.NavigableString true NL]]].

(** The page host answers with the url itself as markup; the download of
    document 0000 breaks off after five bytes; the PDF has three pages, the
    second without a text layer. *)
Definition env : services nat string :=
  {| requests_get := λ _ w, (Ok "<listing>", w);
     urlopen_read := λ url w, (Ok url, w);
     urlretrieve_body := λ url w,
       if String.eqb url "https://arxiv.org/pdf/0000"
       then (Raise (ServiceError "retrieval incomplete"), w)
       else (Ok "%PDF-1.4", w);
     urlretrieve_partial := λ url _,
       if String.eqb url "https://arxiv.org/pdf/0000" then Some "%PDF-" else None;
     generate_content_text := λ _ _ w, (Ok "A good paper.", S w);
     date_today := λ _, "2024-11-05";
     html_parser := λ markup,
       if String.eqb markup "cleaned" then cleaned
       else if String.eqb markup "blank" then blank
       else Sample.article;
     pdf_pages := λ _, Ok ["Hello"; "scanned"; "World"];
     extract_text := λ page,
       if String.eqb page "scanned" then Raise (ServiceError "no text layer")
       else Ok page |}.

Definition untitled : dict := <["title" := "Untitled"]> ∅.

(** A notebook whose only paper has no url. *)
Definition without_url : notebook nat := Notebook [untitled] ∅ [] [] [] 0.

(** A notebook whose first paper is finished and whose second has no
    summary yet. *)
Definition half_done : notebook nat :=
  Notebook [<["summary" := "A good paper."]> Sample.Foo; Sample.Bar; Sample.Baz]
    ∅ [] [] [] 0.

End Scenario.

(** * Properties *)

(** ** Python strings *)

Section PyStrFacts.
Import PyStr.

Lemma app_cons c s t : String c s +:+ t = String c (s +:+ t).
Proof. reflexivity. Qed.

Lemma app_nil_r s : s +:+ "" = s.
Proof. induction s as [|c s IH]; [reflexivity|]. by rewrite app_cons, IH. Qed.

Lemma app_assoc s t u : (s +:+ t) +:+ u = s +:+ (t +:+ u).
Proof. induction s as [|c s IH]; [reflexivity|]. by rewrite !app_cons, IH. Qed.

Lemma length_app s t : String.length (s +:+ t) = String.length s + String.length t.
Proof.
  induction s as [|c s IH]; [reflexivity|].
  rewrite app_cons. simpl. by rewrite IH.
Qed.

Lemma count_char_app c s t : count_char c (s +:+ t) = count_char c s + count_char c t.
Proof.
  induction s as [|c' s IH]; [reflexivity|].
  rewrite app_cons. simpl. rewrite IH. lia.
Qed.

Lemma concat_empty_cons b bs : String.concat "" (b :: bs) = b +:+ String.concat "" bs.
Proof. destruct bs; simpl; [by rewrite app_nil_r|done]. Qed.

Lemma concat_empty_app l1 l2 :
  String.concat "" (l1 ++ l2) = String.concat "" l1 +:+ String.concat "" l2.
Proof.
  induction l1 as [|x l1 IH]; [done|].
  rewrite <- app_comm_cons, !concat_empty_cons, IH. by rewrite app_assoc.
Qed.

Lemma join_cons sep c c' cs :
  join sep (c :: c' :: cs) = c +:+ sep +:+ join sep (c' :: cs).
Proof. reflexivity. Qed.

(** *** Prefixes and occurrences *)

Lemma prefix_app old s : String.prefix old (old +:+ s) = true.
Proof.
  induction old as [|c old IH]; [by destruct s|].
  rewrite app_cons. simpl. destruct (ascii_dec c c); [done|congruence].
Qed.

Lemma prefix_nil_r old : old ≠ "" → String.prefix old "" = false.
Proof. by destruct old. Qed.

Lemma occurs_nil old : old ≠ "" → occurs old "" = false.
Proof. by destruct old. Qed.

Lemma prefix_cons c a b : String.prefix (String c a) (String c b) = String.prefix a b.
Proof. simpl. destruct (ascii_dec c c); [done|congruence]. Qed.

Lemma prefix_trans a : ∀ b c,
  String.prefix a b = true → String.prefix b c = true → String.prefix a c = true.
Proof.
  induction a as [|x a IH]; intros b c Hab Hbc; [by destruct c|].
  destruct b as [|y b]; [done|]. destruct c as [|z c]; [done|].
  simpl in *. destruct (ascii_dec x y) as [->|]; [|done].
  destruct (ascii_dec y z) as [->|]; [|done]. eauto.
Qed.

Lemma occurs_prefix old : ∀ p s,
  String.prefix p s = true → occurs old p = true → occurs old s = true.
Proof.
  intros p. induction p as [|x p IH]; intros s Hps Ho.
  - destruct old; [by destruct s|done].
  - destruct s as [|y s]; [done|].
    simpl in Hps. destruct (ascii_dec x y) as [->|]; [|done].
    cbn [occurs] in *. apply orb_true_iff in Ho as [Ho|Ho].
    + rewrite (prefix_trans _ (String y p) (String y s)); [done|done|by rewrite prefix_cons].
    + rewrite (IH s Hps Ho). apply orb_true_r.
Qed.

Lemma occurs_cons old c s : occurs old s = true → occurs old (String c s) = true.
Proof. intros H. cbn [occurs]. rewrite H. apply orb_true_r. Qed.

(** *** replace *)

Lemma replace_go_skip old new p s :
  replace_go old new (String.length p) (p +:+ s) = replace_go old new 0 s.
Proof. induction p as [|c p IH]; [reflexivity|]. rewrite app_cons. simpl. apply IH. Qed.

(** A leading occurrence is replaced, and the scan goes on behind it. *)
Lemma replace_app_old old new s :
  old ≠ "" → replace old new (old +:+ s) = new +:+ replace old new s.
Proof.
  destruct old as [|c old]; [done|intros _].
  unfold replace. rewrite app_cons.
  change (replace_go (String c old) new 0 (String c (old +:+ s)))
    with (if String.prefix (String c old) (String c (old +:+ s))
          then new +:+ replace_go (String c old) new
                         (String.length (String c old) - 1) (old +:+ s)
          else String c (replace_go (String c old) new 0 (old +:+ s))).
  rewrite <- app_cons, prefix_app.
  replace (String.length (String c old) - 1) with (String.length old) by (simpl; lia).
  by rewrite replace_go_skip.
Qed.

Lemma replace_absent old new s : occurs old s = false → replace old new s = s.
Proof.
  unfold replace. induction s as [|c s IH]; [done|].
  intros H. cbn [occurs] in H. apply orb_false_iff in H as [Hp Ho].
  cbn [replace_go]. rewrite Hp. f_equal. by apply IH.
Qed.

(** *** strip *)

Lemma lstrip_first s : not_space (first_char (lstrip s)) = true.
Proof.
  induction s as [|c s IH]; [done|].
  simpl. destruct (isspace c) eqn:E; [done|]. simpl. by rewrite E.
Qed.

Lemma rstrip_first s :
  not_space (first_char s) = true → not_space (first_char (rstrip s)) = true.
Proof.
  destruct s as [|c s]; [done|]. cbn [first_char not_space rstrip]. intros Hc.
  destruct (rstrip s); [|by simpl].
  destruct (isspace c) eqn:E; [done|]. simpl. by rewrite E.
Qed.

Lemma rstrip_last s : not_space (last_char (rstrip s)) = true.
Proof.
  induction s as [|c s IH]; [done|].
  simpl. destruct (rstrip s) as [|c' r] eqn:E.
  - destruct (isspace c) eqn:Ec; [done|]. simpl. by rewrite Ec.
  - done.
Qed.

Lemma strip_trimmed s : trimmed (strip s) = true.
Proof.
  unfold trimmed, strip. apply andb_true_iff. split.
  - apply rstrip_first, lstrip_first.
  - apply rstrip_last.
Qed.

Lemma lstrip_id s : not_space (first_char s) = true → lstrip s = s.
Proof. destruct s as [|c s]; [done|]. simpl. by destruct (isspace c). Qed.

Lemma rstrip_id s : not_space (last_char s) = true → rstrip s = s.
Proof.
  induction s as [|c s IH]; [done|].
  destruct s as [|c' s].
  - simpl. by destruct (isspace c).
  - intros H. change (last_char (String c (String c' s))) with (last_char (String c' s)) in H.
    cbn [rstrip]. cbn [rstrip] in IH. rewrite (IH H). done.
Qed.

Lemma trimmed_strip s : trimmed s = true → strip s = s.
Proof.
  unfold trimmed, strip. intros [H1 H2]%andb_true_iff.
  by rewrite lstrip_id, rstrip_id.
Qed.

(** *** Characters and occurrences survive in sub-strings *)

Lemma all_chars_lstrip P s : all_chars P s = true → all_chars P (lstrip s) = true.
Proof.
  induction s as [|c s IH]; [done|].
  simpl. intros [Hc Hs]%andb_true_iff.
  destruct (isspace c); [auto|]. simpl. by rewrite Hc, Hs.
Qed.

Lemma all_chars_rstrip P s : all_chars P s = true → all_chars P (rstrip s) = true.
Proof.
  induction s as [|c s IH]; [done|].
  simpl. intros [Hc Hs]%andb_true_iff. specialize (IH Hs).
  destruct (rstrip s) as [|c' r].
  - destruct (isspace c); [done|]. simpl. by rewrite Hc.
  - simpl in *. by rewrite Hc, IH.
Qed.

Lemma all_chars_strip P s : all_chars P s = true → all_chars P (strip s) = true.
Proof. intros. by apply all_chars_rstrip, all_chars_lstrip. Qed.

Lemma all_chars_split_go P sep s : ∀ skip,
  all_chars P s = true → Forall (λ p, all_chars P p = true) (split_go sep skip s).
Proof.
  induction s as [|c s IH]; intros skip H.
  - repeat constructor.
  - simpl in H. apply andb_true_iff in H as [Hc Hs].
    cbn [split_go]. destruct skip as [|k]; [|by apply IH].
    destruct (String.prefix sep (String c s)).
    + constructor; [done|by apply IH].
    + specialize (IH 0 Hs). destruct (split_go sep 0 s) as [|p ps].
      * repeat constructor. simpl. by rewrite Hc.
      * apply Forall_cons in IH as [Hp Hps]. constructor; [|done].
        simpl. by rewrite Hc, Hp.
Qed.

Lemma occurs_lstrip old s : occurs old s = false → occurs old (lstrip s) = false.
Proof.
  induction s as [|c s IH]; [done|].
  intros H. simpl. destruct (isspace c); [|done].
  apply IH. destruct (occurs old s) eqn:E; [|done].
  by rewrite occurs_cons in H.
Qed.

Lemma rstrip_prefix s : String.prefix (rstrip s) s = true.
Proof.
  induction s as [|c s IH]; [done|].
  simpl. destruct (rstrip s) as [|c' r].
  - destruct (isspace c); [done|]. by destruct (ascii_dec c c).
  - destruct (ascii_dec c c); done.
Qed.

Lemma occurs_rstrip old s : occurs old s = false → occurs old (rstrip s) = false.
Proof.
  intros H. destruct (occurs old (rstrip s)) eqn:E; [|done].
  by rewrite (occurs_prefix old _ _ (rstrip_prefix s) E) in H.
Qed.

Lemma occurs_strip old s : occurs old s = false → occurs old (strip s) = false.
Proof. intros. by apply occurs_rstrip, occurs_lstrip. Qed.

(** The pieces of [split] hold no occurrence of the separator; the first
    piece is a prefix of the string. *)
Lemma split_go_pieces sep s : sep ≠ "" → ∀ skip,
  Forall (λ p, occurs sep p = false) (split_go sep skip s) ∧
  (skip = 0 → ∃ p ps, split_go sep 0 s = p :: ps ∧ String.prefix p s = true).
Proof.
  intros Hsep. induction s as [|c s IH]; intros skip.
  - split.
    + repeat constructor. by apply occurs_nil.
    + intros _. by exists "", [].
  - cbn [split_go]. destruct skip as [|k].
    2:{ split; [apply IH|done]. }
    destruct (String.prefix sep (String c s)) eqn:Hp.
    + split.
      * constructor; [by apply occurs_nil|apply IH].
      * intros _. by exists "", (split_go sep (String.length sep - 1) s).
    + destruct (IH 0) as [Hall H0].
      destruct (H0 eq_refl) as (p & ps & Hsplit & Hpre).
      rewrite Hsplit in *. apply Forall_cons in Hall as [Hop Hops].
      split.
      * constructor; [|done]. cbn [occurs]. rewrite Hop, orb_false_r.
        destruct (String.prefix sep (String c p)) eqn:E; [|done].
        rewrite (prefix_trans sep (String c p) (String c s)) in Hp; [done|done|].
        by rewrite prefix_cons.
      * intros _. exists (String c p), ps. split; [done|]. by rewrite prefix_cons.
Qed.

Lemma split_no_sep sep s :
  sep ≠ "" → Forall (λ p, occurs sep p = false) (split sep s).
Proof. intros H. apply (split_go_pieces sep s H 0). Qed.

(** *** splitlines *)

Lemma splitlines_cons_linebreak c s :
  is_linebreak c = true →
  ∃ rest, splitlines (String c s) = "" :: splitlines rest ∧
          String.length rest ≤ String.length s.
Proof.
  intros Hc. cbn [splitlines]. rewrite Hc.
  destruct s as [|c' s'].
  - by exists "".
  - destruct (Ascii.eqb c CR && Ascii.eqb c' LF).
    + exists s'. split; [done|]. simpl. lia.
    + by exists (String c' s').
Qed.

Lemma splitlines_no_linebreak s :
  Forall (λ l, no_linebreak l = true) (splitlines s).
Proof.
  remember (String.length s) as n eqn:Hn.
  revert s Hn. induction n as [n IH] using lt_wf_ind. intros s ->.
  destruct s as [|c s]; [constructor|].
  destruct (is_linebreak c) eqn:Hc.
  - destruct (splitlines_cons_linebreak c s Hc) as (rest & -> & Hlen).
    constructor; [done|]. eapply IH; [|done]. simpl. lia.
  - cbn [splitlines]. rewrite Hc.
    specialize (IH (String.length s) ltac:(simpl; lia) s eq_refl).
    destruct (splitlines s) as [|l ls].
    + repeat constructor. unfold no_linebreak. simpl. by rewrite Hc.
    + apply Forall_cons in IH as [Hl Hls]. constructor; [|done].
      unfold no_linebreak in *. simpl. by rewrite Hc, Hl.
Qed.

Lemma splitlines_single c :
  c ≠ "" → no_linebreak c = true → splitlines c = [c].
Proof.
  induction c as [|a c IH]; [done|]. intros _ H.
  unfold no_linebreak in H. simpl in H. apply andb_true_iff in H as [Ha Hc].
  apply negb_true_iff in Ha. cbn [splitlines]. rewrite Ha.
  destruct c as [|b c]; [done|].
  rewrite IH; done.
Qed.

Lemma splitlines_line c r :
  no_linebreak c = true → splitlines (c +:+ NL +:+ r) = c :: splitlines r.
Proof.
  induction c as [|a c IH]; intros H.
  - change ("" +:+ NL +:+ r) with (String LF r).
    cbn [splitlines]. change (is_linebreak LF) with true. cbn match.
    destruct r as [|c' r']; [done|].
    change (Ascii.eqb LF CR) with false. done.
  - unfold no_linebreak in H. simpl in H. apply andb_true_iff in H as [Ha Hc].
    apply negb_true_iff in Ha.
    rewrite app_cons. cbn [splitlines]. rewrite Ha.
    rewrite (IH Hc). done.
Qed.

Lemma splitlines_join cs :
  Forall (λ c, c ≠ "" ∧ no_linebreak c = true) cs →
  splitlines (join NL cs) = cs.
Proof.
  induction cs as [|c cs IH]; [done|]. intros [[Hne Hlb] Hcs]%Forall_cons.
  destruct cs as [|c' cs].
  - by apply splitlines_single.
  - rewrite join_cons, splitlines_line by done. f_equal. by apply IH.
Qed.

End PyStrFacts.

(** ** What the cleaning of a text keeps *)

Section NonBlankFacts.
Import PyStr.

Lemma linebreak_isspace c : is_linebreak c = true → isspace c = true.
Proof. destruct c as [[] [] [] [] [] [] [] []]; done. Qed.

Lemma non_blank_app s t : non_blank (s +:+ t) = non_blank s +:+ non_blank t.
Proof.
  induction s as [|c s IH]; [done|].
  rewrite app_cons. cbn [non_blank]. destruct (isspace c); [done|].
  by rewrite app_cons, IH.
Qed.

Lemma non_blank_lstrip s : non_blank (lstrip s) = non_blank s.
Proof.
  induction s as [|c s IH]; [done|].
  cbn [lstrip]. destruct (isspace c) eqn:Hc; [|done].
  cbn [non_blank]. by rewrite Hc.
Qed.

Lemma non_blank_rstrip s : non_blank (rstrip s) = non_blank s.
Proof.
  induction s as [|c s IH]; [done|].
  cbn [rstrip non_blank]. rewrite <- IH.
  destruct (rstrip s) as [|c' r].
  - destruct (isspace c) eqn:Hc; [done|]. cbn [non_blank]. by rewrite Hc.
  - done.
Qed.

Lemma non_blank_strip s : non_blank (strip s) = non_blank s.
Proof. unfold strip. by rewrite non_blank_rstrip, non_blank_lstrip. Qed.

Lemma splitlines_cons_break c s :
  is_linebreak c = true →
  ∃ rest, splitlines (String c s) = "" :: splitlines rest ∧
          (rest = s ∨ s = String LF rest).
Proof.
  intros Hc. cbn [splitlines]. rewrite Hc.
  destruct s as [|c' s'].
  - exists "". by split; [|left].
  - destruct (Ascii.eqb c CR && Ascii.eqb c' LF) eqn:E.
    + exists s'. split; [done|]. right.
      apply andb_true_iff in E as [_ E]. by apply Ascii.eqb_eq in E as ->.
    + exists (String c' s'). by split; [|left].
Qed.

(** Cutting a text into lines drops line boundaries only. *)
Lemma non_blank_splitlines s :
  non_blank (String.concat "" (splitlines s)) = non_blank s.
Proof.
  remember (String.length s) as n eqn:Hn.
  revert s Hn. induction n as [n IH] using lt_wf_ind. intros s ->.
  destruct s as [|c s]; [done|].
  destruct (is_linebreak c) eqn:Hlb.
  - destruct (splitlines_cons_break c s Hlb) as (rest & -> & Hrest).
    rewrite concat_empty_cons. change ("" +:+ ?x) with x.
    cbn [non_blank]. rewrite (linebreak_isspace c Hlb).
    destruct Hrest as [->| ->].
    + eapply IH; [|done]. simpl. lia.
    + cbn [non_blank]. change (isspace LF) with true. cbn match.
      eapply IH; [|done]. simpl. lia.
  - cbn [splitlines]. rewrite Hlb.
    specialize (IH (String.length s) ltac:(simpl; lia) s eq_refl).
    destruct (splitlines s) as [|l ls].
    + cbn in IH. cbn. by rewrite <- IH.
    + rewrite concat_empty_cons in IH. rewrite concat_empty_cons, app_cons.
      cbn [non_blank]. by rewrite IH.
Qed.

Lemma leading_spaces_prefix sep : ∀ s,
  all_chars isspace sep = true → String.prefix sep s = true →
  leading_spaces (String.length sep) s = true.
Proof.
  induction sep as [|a sep IH]; intros s Hsep Hpre; [done|].
  destruct s as [|b s]; [done|].
  simpl in Hsep. apply andb_true_iff in Hsep as [Ha Hsep].
  simpl in Hpre. destruct (ascii_dec a b) as [<-|]; [|done].
  cbn [String.length leading_spaces]. rewrite Ha. by apply IH.
Qed.

(** Splitting at a separator made of white space drops white space only. *)
Lemma non_blank_split_go sep s :
  sep ≠ "" → all_chars isspace sep = true → ∀ skip,
  leading_spaces skip s = true →
  non_blank (String.concat "" (split_go sep skip s)) = non_blank s.
Proof.
  intros Hne Hsep. induction s as [|c s IH]; intros skip Hskip.
  - by destruct skip.
  - destruct skip as [|k].
    + cbn [split_go]. destruct (String.prefix sep (String c s)) eqn:Hpre.
      * pose proof (leading_spaces_prefix sep _ Hsep Hpre) as Hlead.
        destruct sep as [|a sep]; [done|].
        cbn [String.length leading_spaces] in Hlead.
        apply andb_true_iff in Hlead as [Hc Hlead].
        rewrite concat_empty_cons. change ("" +:+ ?x) with x.
        cbn [String.length]. rewrite Nat.sub_1_r. cbn [Nat.pred].
        rewrite (IH _ Hlead). cbn [non_blank]. by rewrite Hc.
      * specialize (IH 0 eq_refl).
        destruct (split_go sep 0 s) as [|p ps].
        -- cbn in IH. cbn. by rewrite <- IH.
        -- rewrite concat_empty_cons in IH. rewrite concat_empty_cons, app_cons.
           cbn [non_blank]. by rewrite IH.
    + cbn [leading_spaces] in Hskip. apply andb_true_iff in Hskip as [Hc Hskip].
      cbn [split_go]. rewrite (IH _ Hskip). cbn [non_blank]. by rewrite Hc.
Qed.

Lemma non_blank_strip_all pieces :
  non_blank (String.concat "" (strip <$> pieces)) = non_blank (String.concat "" pieces).
Proof.
  induction pieces as [|p ps IH]; [done|].
  rewrite fmap_cons, !concat_empty_cons, !non_blank_app. by rewrite non_blank_strip, IH.
Qed.

Lemma non_blank_chunks lines :
  non_blank (String.concat ""
    ((strip <$> lines) ≫= (λ line, strip <$> split "  " line)))
  = non_blank (String.concat "" lines).
Proof.
  induction lines as [|l ls IH]; [done|].
  rewrite fmap_cons, bind_cons, concat_empty_app, concat_empty_cons, !non_blank_app.
  rewrite IH. f_equal.
  rewrite non_blank_strip_all. unfold split.
  by rewrite (non_blank_split_go "  " _ ltac:(done) eq_refl 0 eq_refl), non_blank_strip.
Qed.

Lemma concat_filter_nonempty chunks :
  String.concat "" (List.filter (λ chunk, negb (String.eqb chunk "")) chunks)
  = String.concat "" chunks.
Proof.
  induction chunks as [|c cs IH]; [done|].
  cbn [List.filter]. destruct (String.eqb_spec c "") as [->|Hc]; cbn [negb].
  - by rewrite concat_empty_cons.
  - by rewrite !concat_empty_cons, IH.
Qed.

Lemma non_blank_join chunks :
  non_blank (join NL chunks) = non_blank (String.concat "" chunks).
Proof.
  induction chunks as [|c cs IH]; [done|].
  destruct cs as [|c' cs]; [done|].
  rewrite join_cons, concat_empty_cons, !non_blank_app, IH. done.
Qed.

(** The cleaning of [extract_paper] keeps every character that is not white
    space, in order, and adds none. *)
Lemma non_blank_cleaned text :
  non_blank (join NL (List.filter (λ chunk, negb (String.eqb chunk ""))
               ((strip <$> splitlines text) ≫= (λ line, strip <$> split "  " line))))
  = non_blank text.
Proof.
  by rewrite non_blank_join, concat_filter_nonempty, non_blank_chunks,
    non_blank_splitlines.
Qed.

End NonBlankFacts.

(** ** Counting the blocks of the HTML file *)

Section OccurrenceFacts.

(** A text free of markup holds no start of a block, nor the beginning of
    one. *)
Lemma occurrences_markup_free text rest :
  markup_free text = true →
  occurrences block_opening (text +:+ rest) = occurrences block_opening rest.
Proof.
  induction text as [|c text IH]; intros Hfree; [done|].
  unfold markup_free in Hfree. simpl in Hfree.
  apply andb_true_iff in Hfree as [Hc Hfree].
  apply negb_true_iff, Ascii.eqb_neq in Hc.
  rewrite app_cons. cbn [occurrences]. rewrite (IH Hfree).
  change block_opening with (String "<" ("h2><a href=" +:+ DQ)).
  cbn [String.prefix]. by destruct (ascii_dec "<" c) as [<-|].
Qed.

Lemma prefix_empty s : String.prefix "" s = true.
Proof. by destruct s. Qed.

Lemma occurrences_opening rest :
  occurrences block_opening ("<h2><a href=" +:+ DQ +:+ rest)
  = S (occurrences block_opening rest).
Proof.
  unfold block_opening, DQ. cbv [String.app]. simpl. by rewrite prefix_empty.
Qed.

Lemma occurrences_after_url rest :
  occurrences block_opening (DQ +:+ ">" +:+ rest) = occurrences block_opening rest.
Proof. unfold block_opening, DQ. cbv [String.app]. simpl. reflexivity. Qed.

Lemma occurrences_after_title rest :
  occurrences block_opening ("</a></h2> <p>" +:+ rest) = occurrences block_opening rest.
Proof. unfold block_opening, DQ. cbv [String.app]. simpl. reflexivity. Qed.

Lemma occurrences_after_summary rest :
  occurrences block_opening ("</p>" +:+ rest) = occurrences block_opening rest.
Proof. unfold block_opening, DQ. cbv [String.app]. simpl. reflexivity. Qed.

Lemma occurrences_before_date rest :
  occurrences block_opening
    ("<html> <head> <h1>Daily Dose of AI Research</h1> <h4>" +:+ rest)
  = occurrences block_opening rest.
Proof. unfold block_opening, DQ. cbv [String.app]. simpl. reflexivity. Qed.

Lemma occurrences_after_date rest :
  occurrences block_opening
    ("</h4> <p><i>Summaries generated with: " +:+ "gemini-1.5-flash" +:+ "</i>" +:+ rest)
  = occurrences block_opening rest.
Proof. unfold block_opening, DQ. cbv [String.app]. simpl. reflexivity. Qed.

Lemma paper_markup_free_fields paper title url summary :
  paper_markup_free paper = true →
  paper !! "title" = Some title → paper !! "url" = Some url →
  paper !! "summary" = Some summary →
  markup_free title = true ∧ markup_free url = true ∧ markup_free summary = true.
Proof.
  unfold paper_markup_free. cbn [forallb]. intros Hfree Ht Hu Hs.
  rewrite Ht, Hu, Hs in Hfree. cbn [from_option] in Hfree.
  by repeat (apply andb_true_iff in Hfree as [? Hfree]).
Qed.

(** The block of a paper whose fields are free of markup holds one start of
    a block: its own. *)
Lemma occurrences_block paper block rest :
  html_block_of paper block → paper_markup_free paper = true →
  occurrences block_opening (block +:+ rest) = S (occurrences block_opening rest).
Proof.
  intros (title & url & summary & Ht & Hu & Hs & ->) Hfree.
  destruct (paper_markup_free_fields _ _ _ _ Hfree Ht Hu Hs) as (Hft & Hfu & Hfs).
  rewrite !app_assoc.
  rewrite occurrences_opening, (occurrences_markup_free url) by done.
  rewrite occurrences_after_url, (occurrences_markup_free title) by done.
  rewrite occurrences_after_title, (occurrences_markup_free summary) by done.
  by rewrite occurrences_after_summary.
Qed.

Lemma occurrences_blocks ps : ∀ blocks rest,
  Forall2 html_block_of ps blocks → forallb paper_markup_free ps = true →
  occurrences block_opening (String.concat "" blocks +:+ rest)
  = length ps + occurrences block_opening rest.
Proof.
  induction ps as [|p ps IH]; intros blocks rest Hblocks Hfree.
  - by apply Forall2_nil_inv_l in Hblocks as ->.
  - apply Forall2_cons_inv_l in Hblocks as (b & bs & Hb & Hbs & ->).
    cbn [forallb] in Hfree. apply andb_true_iff in Hfree as [Hp Hfree].
    rewrite concat_empty_cons, app_assoc, (occurrences_block p b) by done.
    rewrite (IH bs rest) by done. done.
Qed.

(** The header and the closing fragment hold no start of a block, so the
    file of papers free of markup holds one for each paper. *)
Lemma occurrences_page today ps blocks :
  markup_free today = true →
  Forall2 html_block_of ps blocks → forallb paper_markup_free ps = true →
  occurrences block_opening (html_header today +:+ String.concat "" blocks +:+ html_footer)
  = length ps.
Proof.
  intros Htoday Hblocks Hfree. unfold html_header.
  rewrite !app_assoc.
  rewrite occurrences_before_date, (occurrences_markup_free today) by done.
  rewrite occurrences_after_date, (occurrences_blocks ps) by done.
  change (occurrences block_opening html_footer) with 0. lia.
Qed.

End OccurrenceFacts.

(** ** The parsed markup *)

Section Bs4Facts.
Import Bs4.

Lemma descendants_Tag nm attrs cs : descendants (Tag nm attrs cs) = forest_descendants cs.
Proof. induction cs as [|c cs IH]; [done|]. simpl in *. by rewrite IH. Qed.

Lemma strings_under_Tag anc nm attrs cs :
  strings_under anc (Tag nm attrs cs) = forest_strings (nm :: anc) cs.
Proof. induction cs as [|c cs IH]; [done|]. simpl in *. by rewrite IH. Qed.

Lemma extract_node_Tag names nm attrs cs :
  extract_node names (Tag nm attrs cs) =
  if bool_decide (nm ∈ names) then None
  else Some (Tag nm attrs (extract_all names cs)).
Proof.
  simpl. destruct (bool_decide (nm ∈ names)); [done|]. do 2 f_equal.
  induction cs as [|c cs IH]; [done|]. simpl. by rewrite IH.
Qed.

(** Below an element with one of the names, no string is outside. *)
Lemma strings_under_hidden names n : ∀ anc,
  forallb (λ a, negb (bool_decide (a ∈ names))) anc = false →
  List.filter (outside_of names) (strings_under anc n) = [].
Proof.
  induction n as [b s|nm attrs cs IH] using node_forall_ind; intros anc Hanc.
  - simpl. destruct b; [|done]. simpl. unfold outside_of. simpl. by rewrite Hanc.
  - rewrite strings_under_Tag.
    assert (forallb (λ a, negb (bool_decide (a ∈ names))) (nm :: anc) = false) as H'.
    { simpl. rewrite Hanc. apply andb_false_r. }
    revert H'. generalize (nm :: anc) as anc'. intros anc' H'.
    induction IH as [|c cs Hc Hcs IHcs]; [done|].
    simpl. rewrite List.filter_app, (Hc anc' H'), IHcs. done.
Qed.

Lemma forest_strings_hidden names cs anc :
  forallb (λ a, negb (bool_decide (a ∈ names))) anc = false →
  List.filter (outside_of names) (forest_strings anc cs) = [].
Proof.
  intros H. induction cs as [|c cs IH]; [done|].
  simpl. by rewrite List.filter_app, strings_under_hidden, IH.
Qed.

Lemma get_text_cons c cs : get_text (c :: cs) = node_text c +:+ get_text cs.
Proof.
  unfold get_text, node_text. simpl forest_descendants.
  rewrite app_comm_cons, fmap_app. apply concat_empty_app.
Qed.

(** What is left of a node after the extraction contributes exactly the
    strings of the node that lie outside the extracted elements. *)
Lemma extract_node_text names n : ∀ anc,
  forallb (λ a, negb (bool_decide (a ∈ names))) anc = true →
  from_option node_text "" (extract_node names n)
  = String.concat "" (snd <$> List.filter (outside_of names) (strings_under anc n)).
Proof.
  induction n as [b s|nm attrs cs IH] using node_forall_ind; intros anc Hanc.
  - destruct b; [|reflexivity].
    cbn [strings_under List.filter]. unfold outside_of. cbn [fst]. rewrite Hanc.
    reflexivity.
  - rewrite extract_node_Tag.
    destruct (bool_decide (nm ∈ names)) eqn:Hnm.
    + rewrite strings_under_Tag, forest_strings_hidden; [done|].
      simpl. by rewrite Hnm.
    + simpl from_option. unfold node_text. rewrite descendants_Tag.
      rewrite fmap_cons. rewrite concat_empty_cons. simpl string_of.
      change ("" +:+ ?x) with x.
      rewrite strings_under_Tag.
      assert (forallb (λ a, negb (bool_decide (a ∈ names))) (nm :: anc) = true) as H'.
      { simpl. by rewrite Hnm, Hanc. }
      revert H'. generalize (nm :: anc) as anc'. intros anc' H'.
      fold (get_text (extract_all names cs)).
      induction IH as [|c cs Hc Hcs IHcs]; [done|].
      simpl forest_strings. rewrite List.filter_app, fmap_app, concat_empty_app.
      rewrite <- (Hc anc' H'), <- IHcs.
      simpl extract_all. destruct (extract_node names c) as [c'|]; simpl from_option.
      * by rewrite get_text_cons.
      * done.
Qed.

Lemma get_text_extract_all names soup :
  get_text (extract_all names soup) = visible_text names soup.
Proof.
  unfold visible_text. induction soup as [|c cs IH]; [done|].
  simpl forest_strings. rewrite List.filter_app, fmap_app, concat_empty_app.
  rewrite <- IH, <- (extract_node_text names c []) by done.
  simpl extract_all. destruct (extract_node names c) as [c'|]; simpl from_option.
  - by rewrite get_text_cons.
  - done.
Qed.

(** No element with one of the names is left after the extraction. *)
Lemma extract_node_clean names n :
  from_option (λ n', List.filter (is_tag_named names) (n' :: descendants n')) []
    (extract_node names n) = [].
Proof.
  induction n as [b s|nm attrs cs IH] using node_forall_ind; [done|].
  rewrite extract_node_Tag.
  destruct (bool_decide (nm ∈ names)) eqn:Hnm; [done|].
  cbn [from_option]. rewrite descendants_Tag.
  cbn [List.filter is_tag_named]. rewrite Hnm.
  induction IH as [|c cs Hc Hcs IHcs]; [done|].
  cbn [extract_all]. destruct (extract_node names c) as [c'|]; [|done].
  cbn [forest_descendants]. rewrite app_comm_cons, List.filter_app.
  cbn [from_option] in Hc. by rewrite Hc, IHcs.
Qed.

Lemma find_all_extract_all names soup : find_all names (extract_all names soup) = [].
Proof.
  unfold find_all. induction soup as [|c cs IH]; [done|].
  cbn [extract_all]. pose proof (extract_node_clean names c) as Hc.
  destruct (extract_node names c) as [c'|]; [|done].
  cbn [forest_descendants]. rewrite app_comm_cons, List.filter_app.
  cbn [from_option] in Hc. by rewrite Hc, IH.
Qed.

End Bs4Facts.

(** ** The notebook monad *)

Section MonadFacts.
Context {World : Type}.
Implicit Types s : notebook World.
Implicit Types t : notebook World → notebook World.

Lemma bind_Ok {A B} (m : M A) (k : A → M B) s s' a :
  m s = (Ok a, s') → bind m k s = k a s'.
Proof. unfold bind. by intros ->. Qed.

Lemma bind_Raise {A B} (m : M A) (k : A → M B) s s' e :
  m s = (Raise e, s') → bind m k s = (Raise e, s').
Proof. unfold bind. by intros ->. Qed.

Lemma for_app {X} (xs ys : list X) body s :
  fst (for_ xs body s) = Ok tt →
  for_ (xs ++ ys) body s = for_ ys body (snd (for_ xs body s)).
Proof.
  revert s. induction xs as [|x xs IH]; intros s; [done|].
  simpl. unfold bind. destruct (body x s) as [[[]|e] s1]; [apply IH|done].
Qed.

Lemma preserves_bind {A B X} (f : notebook World → X) (m : M A) (k : A → M B) :
  preserves f m → (∀ a, preserves f (k a)) → preserves f (bind m k).
Proof.
  intros Hm Hk s. unfold bind. specialize (Hm s).
  destruct (m s) as [[a|e] s1]; simpl in *; [|done].
  by rewrite Hk.
Qed.

Lemma preserves_try {A X} (f : notebook World → X) (m h : M A) :
  preserves f m → preserves f h → preserves f (try_except m h).
Proof.
  intros Hm Hh s. unfold try_except. specialize (Hm s).
  destruct (m s) as [[a|e] s1]; simpl in *; [done|].
  by rewrite Hh.
Qed.

Lemma preserves_on_raise {A X} (f : notebook World → X) (m : M A) h :
  preserves f m → preserves f h → preserves f (on_raise m h).
Proof.
  intros Hm Hh s. unfold on_raise. specialize (Hm s).
  destruct (m s) as [[a|e] s1]; simpl in *; [done|].
  by rewrite Hh.
Qed.

Lemma preserves_for {A X} (f : notebook World → X) (xs : list A) body :
  (∀ x, preserves f (body x)) → preserves f (for_ xs body).
Proof.
  intros Hb. induction xs as [|x xs IH]; [done|].
  simpl. apply preserves_bind; auto.
Qed.

Lemma preserves_getitem {X} (f : notebook World → X) (d : dict) k :
  preserves f (getitem d k).
Proof. unfold getitem. destruct (d !! k); done. Qed.

Lemma preserves_outside {A X} (f : notebook World → X) c
    (g : World → result A * World) :
  (∀ cs w s, f (set_outside cs w s) = f s) → preserves f (outside c g).
Proof. intros H s. unfold outside. destruct (g (world s)). apply H. Qed.

Lemma open_w_write_other path path' data :
  path' ≠ path → preserves (λ s, files s !! path') (open_w_write path data).
Proof. intros Hne s. cbn. by rewrite lookup_insert_ne. Qed.

Lemma open_a_write_other path path' data :
  path' ≠ path → preserves (λ s, files s !! path') (open_a_write path data).
Proof. intros Hne s. cbn. by rewrite lookup_insert_ne. Qed.

Lemma commutes_bind {A B} t (m : M A) (k : A → M B) :
  commutes t m → (∀ a, commutes t (k a)) → commutes t (bind m k).
Proof.
  intros Hm Hk s. unfold bind. rewrite Hm.
  destruct (m s) as [[a|e] s1]; simpl; [apply Hk|done].
Qed.

Lemma commutes_for {X} t (xs : list X) body :
  (∀ x, commutes t (body x)) → commutes t (for_ xs body).
Proof.
  intros Hb. induction xs as [|x xs IH]; [done|].
  simpl. apply commutes_bind; auto.
Qed.

Lemma commutes_getitem t (d : dict) k : commutes t (getitem d k).
Proof. unfold getitem. destruct (d !! k); done. Qed.

End MonadFacts.

Ltac preserves_step :=
  first [ apply preserves_bind; [|intros ?]
        | apply preserves_try
        | apply preserves_for; intros ?
        | apply preserves_getitem
        | apply preserves_outside; done
        | apply open_w_write_other; done
        | apply open_a_write_other; done
        | done ].

Ltac commutes_step :=
  first [ apply commutes_bind; [|intros ?]
        | apply commutes_for; intros ?
        | apply commutes_getitem
        | done ].

(** ** The cells *)

Section Cells.
Context {World Page : Type} (env : services World Page).
Implicit Types s : notebook World.

(** *** Discovery (cell 5) *)

Lemma discover_spec h3 s :
  is_Some (heading_anchor h3) →
  ∃ paper, discover h3 s = (Ok tt, set_papers (papers s ++ [paper]) s) ∧
           listing_record h3 paper.
Proof.
  intros [[title href] Ha]. unfold heading_anchor in Ha.
  unfold discover.
  destruct (Bs4.find "a" h3) as [[|nm attrs cs]|] eqn:Hf; try done.
  destruct (attrs !! "href") as [h|] eqn:Hh; simplify_eq/=.
  eexists. split.
  - unfold bind, dot_text, tag_getitem, ret, papers_append, modify. simpl.
    rewrite Hh. reflexivity.
  - exists (Bs4.get_text cs), href. split_and!.
    + unfold heading_anchor. rewrite Hf, Hh. done.
    + done.
    + intros sfx -> Hno. rewrite lookup_insert_eq. f_equal. f_equal.
      rewrite replace_app_old by done. by rewrite replace_absent.
Qed.

Lemma for_discover h3s : ∀ s,
  Forall (λ h3, is_Some (heading_anchor h3)) h3s →
  ∃ new, for_ h3s discover s = (Ok tt, set_papers (papers s ++ new) s) ∧
         Forall2 listing_record h3s new.
Proof.
  induction h3s as [|h3 h3s IH]; intros s Hwf.
  - exists []. split; [|constructor]. simpl. unfold ret.
    rewrite (right_id_L [] (++)). by destruct s.
  - apply Forall_cons in Hwf as [Hh Hwf].
    destruct (discover_spec h3 s Hh) as (paper & Hd & Hrec).
    destruct (IH (set_papers (papers s ++ [paper]) s) Hwf) as (new & Hfor & Hrecs).
    exists (paper :: new). split; [|by constructor].
    simpl. rewrite (bind_Ok _ _ _ _ _ Hd), Hfor. simpl.
    by rewrite <- (assoc_L (++)).
Qed.

(** C2, as amended.  When the listing page is fetched and each of its N [h3]
    headings has a first anchor with an [href], discovery ends normally with
    exactly N papers, in document order; each title is the text of the anchor
    and each url is "https://arxiv.org/pdf" followed by the [href] with every
    occurrence of "/papers" removed.  For an [href] of the form "/papers"
    followed by a suffix free of "/papers", the url is the prefix followed by
    that suffix. *)
Theorem discovery_records s page w' :
  requests_get env BASE_URL (world s) = (Ok page, w') →
  Forall (λ h3, is_Some (heading_anchor h3))
    (Bs4.find_all ["h3"] (html_parser env page)) →
  ∃ s', cell5 env s = (Ok tt, s') ∧
        length (papers s') = length (Bs4.find_all ["h3"] (html_parser env page)) ∧
        Forall2 listing_record (Bs4.find_all ["h3"] (html_parser env page)) (papers s').
Proof.
  intros Hget Hwf. unfold cell5.
  set (h3s := Bs4.find_all ["h3"] (html_parser env page)) in *.
  destruct (for_discover h3s
              (set_papers [] (set_outside (calls s ++ [HttpGet BASE_URL]) w' s)) Hwf)
    as (new & Hfor & Hrecs).
  eexists. split; [|split].
  - unfold bind at 1. unfold outside. rewrite Hget.
    unfold bind, modify. fold h3s. rewrite Hfor. reflexivity.
  - simpl. symmetry. by eapply Forall2_length.
  - done.
Qed.

(** *** PDF extraction (cell 7) *)

Lemma concat_lines_join texts :
  texts ≠ [] →
  String.concat "" ((λ t, t +:+ NL) <$> texts) = PyStr.join NL texts +:+ NL.
Proof.
  induction texts as [|t ts IH]; [done|intros _].
  rewrite fmap_cons, concat_empty_cons.
  destruct ts as [|t' ts].
  - simpl. by rewrite app_nil_r.
  - rewrite IH by done. rewrite join_cons. by rewrite !app_assoc.
Qed.

Lemma concat_lines_length texts :
  String.length (String.concat "" ((λ t, t +:+ NL) <$> texts))
  = sum_list (String.length <$> texts) + length texts.
Proof.
  induction texts as [|t ts IH]; [done|].
  rewrite !fmap_cons, concat_empty_cons, !length_app, IH.
  change (String.length NL) with 1. cbn [sum_list sum_list_with length]. unfold id. lia.
Qed.

Lemma concat_lines_count texts :
  PyStr.count_char PyStr.LF (String.concat "" ((λ t, t +:+ NL) <$> texts))
  = sum_list (PyStr.count_char PyStr.LF <$> texts) + length texts.
Proof.
  induction texts as [|t ts IH]; [done|].
  rewrite !fmap_cons, concat_empty_cons, !count_char_app, IH.
  change (PyStr.count_char PyStr.LF NL) with 1.
  cbn [sum_list sum_list_with length]. unfold id. lia.
Qed.

Lemma read_pages_state pages : ∀ acc s, snd (read_pages env pages acc s) = s.
Proof.
  induction pages as [|p pages IH]; intros acc s; [done|].
  simpl. unfold bind, lift. destruct (extract_text env p); [apply IH|done].
Qed.

Lemma read_pages_texts pages : ∀ texts acc s,
  extract_text env <$> pages = Ok <$> texts →
  read_pages env pages acc s
  = (Ok (acc +:+ String.concat "" ((λ t, t +:+ NL) <$> texts)), s).
Proof.
  induction pages as [|p pages IH]; intros [|t texts] acc s H; try done.
  - simpl. unfold ret. by rewrite app_nil_r.
  - rewrite !fmap_cons in H. injection H as Hp Hps.
    cbn [read_pages]. unfold bind, lift. rewrite Hp.
    rewrite (IH texts _ _ Hps), fmap_cons, concat_empty_cons.
    by rewrite !app_assoc.
Qed.

Lemma urlretrieve_Ok url filename s body w' :
  urlretrieve_body env url (world s) = (Ok body, w') →
  urlretrieve env url filename s
  = (Ok tt, set_files (<[filename := body]> (files s))
              (set_outside (calls s ++ [UrlRetrieve url filename]) w' s)).
Proof.
  intros Hget. unfold urlretrieve, bind, gets, on_raise, outside, open_w_write, modify.
  by rewrite Hget.
Qed.

Lemma urlretrieve_Raise url filename s e w' :
  urlretrieve_body env url (world s) = (Raise e, w') →
  urlretrieve env url filename s
  = (Raise e,
     match urlretrieve_partial env url (world s) with
     | Some bytes => set_files (<[filename := bytes]> (files s))
                       (set_outside (calls s ++ [UrlRetrieve url filename]) w' s)
     | None => set_outside (calls s ++ [UrlRetrieve url filename]) w' s
     end).
Proof.
  intros Hget. unfold urlretrieve, bind, gets, on_raise, outside, open_w_write, modify.
  rewrite Hget. by destruct (urlretrieve_partial env url (world s)).
Qed.

Lemma urlretrieve_preserves {X} (f : notebook World → X) url filename :
  (∀ cs w s, f (set_outside cs w s) = f s) →
  (∀ data s, f (set_files (<[filename := data]> (files s)) s) = f s) →
  preserves f (urlretrieve env url filename).
Proof.
  intros Hout Hfile s.
  destruct (urlretrieve_body env url (world s)) as [[body|e] w] eqn:Hget.
  - rewrite (urlretrieve_Ok _ _ _ _ _ Hget). cbn [snd].
    etrans; [exact (Hfile body (set_outside _ w s))|apply Hout].
  - rewrite (urlretrieve_Raise _ _ _ _ _ Hget). cbn [snd].
    destruct (urlretrieve_partial env url (world s)) as [bytes|]; [|apply Hout].
    etrans; [exact (Hfile bytes (set_outside _ w s))|apply Hout].
Qed.

Lemma extract_pdf_downloaded url s body w' :
  urlretrieve_body env url (world s) = (Ok body, w') →
  extract_pdf env url s
  = bind (lift (pdf_pages env body)) (λ pages, read_pages env pages "")
      (set_files (<["pdf_file.pdf" := body]> (files s))
         (set_outside (calls s ++ [UrlRetrieve url "pdf_file.pdf"]) w' s)).
Proof.
  intros Hget. unfold extract_pdf.
  rewrite (bind_Ok _ _ _ _ _ (urlretrieve_Ok _ "pdf_file.pdf" _ _ _ Hget)).
  unfold PdfReader. unfold bind at 1. unfold bind at 1. unfold gets.
  cbn [files set_files set_outside]. by rewrite lookup_insert_eq.
Qed.

Lemma extract_pdf_not_downloaded url s e w' :
  urlretrieve_body env url (world s) = (Raise e, w') →
  extract_pdf env url s
  = (Raise e,
     match urlretrieve_partial env url (world s) with
     | Some bytes => set_files (<["pdf_file.pdf" := bytes]> (files s))
                       (set_outside (calls s ++ [UrlRetrieve url "pdf_file.pdf"]) w' s)
     | None => set_outside (calls s ++ [UrlRetrieve url "pdf_file.pdf"]) w' s
     end).
Proof.
  intros Hget. unfold extract_pdf.
  by rewrite (bind_Raise _ _ _ _ _ (urlretrieve_Raise _ "pdf_file.pdf" _ _ _ Hget)).
Qed.

(** C3.  When the download succeeds and each of the P pages yields its text,
    [extract_pdf] returns the page texts in page order, each followed by one
    line feed: P line feeds are added in all, and for P > 0 the result is the
    page texts joined by single line feeds, with one more at the end. *)
Theorem extract_pdf_pages url s body w' pages texts :
  urlretrieve_body env url (world s) = (Ok body, w') →
  pdf_pages env body = Ok pages →
  extract_text env <$> pages = Ok <$> texts →
  ∃ text s',
    extract_pdf env url s = (Ok text, s') ∧
    text = String.concat "" ((λ t, t +:+ NL) <$> texts) ∧
    (texts ≠ [] → text = PyStr.join NL texts +:+ NL) ∧
    String.length text = sum_list (String.length <$> texts) + length pages ∧
    PyStr.count_char PyStr.LF text
    = sum_list (PyStr.count_char PyStr.LF <$> texts) + length pages.
Proof.
  intros Hget Hpdf Htexts.
  assert (length pages = length texts) as Hlen.
  { apply (f_equal length) in Htexts. by rewrite !length_fmap in Htexts. }
  eexists _, _. split_and!.
  - unfold extract_pdf, PdfReader.
    unfold bind at 1. rewrite (urlretrieve_Ok _ _ _ _ _ Hget).
    unfold bind at 1. unfold bind at 1.
    unfold gets. cbn [files set_files set_outside].
    rewrite lookup_insert_eq. unfold lift at 1. rewrite Hpdf.
    rewrite (read_pages_texts pages texts) by done. reflexivity.
  - reflexivity.
  - intros Hne. by apply concat_lines_join.
  - rewrite Hlen. apply concat_lines_length.
  - rewrite Hlen. apply concat_lines_count.
Qed.

(** *** HTML extraction (cell 7) *)

Lemma Forall_List_filter {A} (P : A → Prop) (f : A → bool) l :
  Forall P l → Forall (λ x, P x ∧ f x = true) (List.filter f l).
Proof.
  induction 1 as [|x l Hx Hl IH]; [constructor|].
  simpl. destruct (f x) eqn:E; [by constructor|done].
Qed.

(** The chunks that [extract_paper] keeps. *)
Lemma chunks_kept text :
  Forall (λ c, (no_linebreak c = true ∧ trimmed c = true ∧ occurs "  " c = false)
               ∧ negb (String.eqb c "") = true)
    (List.filter (λ chunk, negb (String.eqb chunk ""))
       ((PyStr.strip <$> PyStr.splitlines text)
          ≫= (λ line, PyStr.strip <$> PyStr.split "  " line))).
Proof.
  apply Forall_List_filter.
  apply Forall_bind, Forall_fmap.
  eapply Forall_impl; [apply splitlines_no_linebreak|].
  intros l Hl. cbn. apply Forall_fmap.
  pose proof (all_chars_split_go _ "  " (PyStr.strip l) 0
                (all_chars_strip _ _ Hl)) as H1.
  pose proof (split_no_sep "  " (PyStr.strip l) ltac:(done)) as H2.
  fold (PyStr.split "  " (PyStr.strip l)) in H1.
  revert H1 H2. generalize (PyStr.split "  " (PyStr.strip l)).
  intros pieces H1. induction H1 as [|p ps Hp Hps IH]; intros H2; [constructor|].
  apply Forall_cons in H2 as [Hop Hops]. constructor; [|by apply IH].
  cbn. split_and!.
  - by apply all_chars_strip.
  - apply strip_trimmed.
  - by apply occurs_strip.
Qed.

(** C7.  When the page is fetched, [extract_paper] returns the text of the
    strings outside the script and style elements, cleaned: none of these
    elements is left in the tree it reads, any page with the same strings
    outside them gives the same text, and the characters of the result that
    are not white space are those of these strings, all of them and in
    order.  The lines of the result are the pieces into which the lines of
    these strings fall at two consecutive blanks, each without the white
    space at its ends, the empty ones left out: they are all non-empty,
    without white space at either end and without two consecutive blanks,
    and the result is these lines joined by line feeds. *)
Theorem extract_paper_lines url s html w' :
  urlopen_read env url (world s) = (Ok html, w') →
  ∃ text s',
    extract_paper env url s = (Ok text, s') ∧
    Bs4.find_all ["script"; "style"]
      (Bs4.extract_all ["script"; "style"] (html_parser env html)) = [] ∧
    (∀ url2 s2 html2 w2,
       urlopen_read env url2 (world s2) = (Ok html2, w2) →
       visible_text ["script"; "style"] (html_parser env html2)
       = visible_text ["script"; "style"] (html_parser env html) →
       fst (extract_paper env url2 s2) = Ok text) ∧
    non_blank text
    = non_blank (visible_text ["script"; "style"] (html_parser env html)) ∧
    PyStr.splitlines text
    = List.filter (λ piece, negb (String.eqb piece ""))
        ((PyStr.strip <$> PyStr.splitlines
            (visible_text ["script"; "style"] (html_parser env html)))
           ≫= (λ line, PyStr.strip <$> PyStr.split "  " line)) ∧
    Forall (λ line, line ≠ "" ∧ trimmed line = true ∧ PyStr.strip line = line ∧
                    occurs "  " line = false)
      (PyStr.splitlines text) ∧
    text = PyStr.join NL (PyStr.splitlines text).
Proof.
  intros Hopen.
  assert (∀ url2 s2 html2 w2,
            urlopen_read env url2 (world s2) = (Ok html2, w2) →
            extract_paper env url2 s2
            = (Ok (PyStr.join NL
                     (List.filter (λ chunk, negb (String.eqb chunk ""))
                        ((PyStr.strip <$> PyStr.splitlines
                            (visible_text ["script"; "style"] (html_parser env html2)))
                           ≫= (λ line, PyStr.strip <$> PyStr.split "  " line)))),
               set_outside (calls s2 ++ [UrlOpen url2]) w2 s2)) as Hrun.
  { intros url2 s2 html2 w2 H2. unfold extract_paper, bind, outside, ret.
    rewrite H2. by rewrite get_text_extract_all. }
  pose proof (chunks_kept (visible_text ["script"; "style"] (html_parser env html))) as Hk.
  pose proof (Hrun url s html w' Hopen) as Hthis.
  remember (List.filter (λ chunk, negb (String.eqb chunk ""))
              ((PyStr.strip <$> PyStr.splitlines
                  (visible_text ["script"; "style"] (html_parser env html)))
                 ≫= (λ line, PyStr.strip <$> PyStr.split "  " line))) as kept eqn:Hkept.
  assert (PyStr.splitlines (PyStr.join NL kept) = kept) as Hlines.
  { apply splitlines_join. eapply Forall_impl; [exact Hk|].
    intros c [(Hlb & _ & _) Hne]. split; [|done].
    intros ->. done. }
  exists (PyStr.join NL kept). eexists. split_and!.
  - exact Hthis.
  - apply find_all_extract_all.
  - intros url2 s2 html2 w2 H2 Hvis.
    rewrite (Hrun _ _ _ _ H2). cbn [fst]. by rewrite Hvis, <- Hkept.
  - rewrite Hkept. apply non_blank_cleaned.
  - exact Hlines.
  - rewrite Hlines. eapply Forall_impl; [exact Hk|].
    intros c [(Hlb & Htr & Hocc) Hne]. split_and!; [|done|by apply trimmed_strip|done].
    intros ->. done.
  - by rewrite Hlines.
Qed.

(** *** Summarization (cell 10) *)

Lemma extract_pdf_papers url : preserves papers (extract_pdf env url).
Proof.
  unfold extract_pdf, PdfReader.
  apply preserves_bind; [by apply urlretrieve_preserves|intros _].
  repeat (apply preserves_bind; [|intros ?]); try preserves_step.
  - destruct (_ !! _); done.
  - intros s. by rewrite read_pages_state.
Qed.

Lemma extract_pdf_stdout url : preserves stdout (extract_pdf env url).
Proof.
  unfold extract_pdf, PdfReader.
  apply preserves_bind; [by apply urlretrieve_preserves|intros _].
  repeat (apply preserves_bind; [|intros ?]); try preserves_step.
  - destruct (_ !! _); done.
  - intros s. by rewrite read_pages_state.
Qed.

(** One extraction sends one request, whatever comes of it. *)
Lemma extract_pdf_calls url s :
  calls (snd (extract_pdf env url s)) = calls s ++ [UrlRetrieve url "pdf_file.pdf"].
Proof.
  unfold extract_pdf. unfold bind at 1.
  destruct (urlretrieve_body env url (world s)) as [[body|e] w] eqn:Hget.
  - rewrite (urlretrieve_Ok _ _ _ _ _ Hget).
    unfold PdfReader, bind, gets, lift, raise. cbn [files set_files set_outside].
    rewrite lookup_insert_eq.
    destruct (pdf_pages env body) as [pages|e]; simpl; [|done].
    by rewrite read_pages_state.
  - rewrite (urlretrieve_Raise _ _ _ _ _ Hget).
    by destruct (urlretrieve_partial env url (world s)).
Qed.

Lemma paper_getitem_Ok i key s p v :
  papers s !! i = Some p → p !! key = Some v → paper_getitem i key s = (Ok v, s).
Proof.
  intros Hp Hv. unfold paper_getitem, bind, gets, getitem, ret. by rewrite Hp, Hv.
Qed.

Lemma paper_getitem_state i key s : snd (paper_getitem i key s) = s.
Proof.
  unfold paper_getitem, bind, gets, getitem, raise, ret.
  destruct (papers s !! i) as [p|]; [destruct (p !! key)|]; done.
Qed.

(** The [try] suite either raises and leaves [papers] as it was, or stores
    the answer of the model to the instruction followed by the extracted
    text. *)
Lemma generate_summary_cases i s :
  (∃ e s1, generate_summary env i s = (Raise e, s1) ∧ papers s1 = papers s) ∨
  (∃ s1 url text s2 summary w,
      generate_summary env i s = (Ok tt, s1) ∧
      paper_getitem i "url" s = (Ok url, s) ∧
      extract_pdf env url s = (Ok text, s2) ∧
      generate_content_text env LLM (INSTRUCTION +:+ text) (world s2) = (Ok summary, w) ∧
      papers s1 = alter (<["summary" := summary]>) i (papers s)).
Proof.
  unfold generate_summary.
  pose proof (paper_getitem_state i "url" s) as Hst.
  destruct (paper_getitem i "url" s) as [[url|e] s0] eqn:Hurl; simpl in Hst; subst s0.
  2:{ left. exists e, s. split; [by erewrite bind_Raise|done]. }
  rewrite (bind_Ok _ _ _ _ _ Hurl).
  pose proof (extract_pdf_papers url s) as Hpap.
  destruct (extract_pdf env url s) as [[text|e] s2] eqn:Hext; simpl in Hpap.
  2:{ left. exists e, s2. split; [by erewrite bind_Raise|done]. }
  rewrite (bind_Ok _ _ _ _ _ Hext).
  unfold bind, outside.
  destruct (generate_content_text env LLM (INSTRUCTION +:+ text) (world s2))
    as [[summary|e] w] eqn:Hgen.
  2:{ left. eexists _, _. split; [done|]. done. }
  right. eexists _, url, text, s2, summary, w. split_and!; try done.
  simpl. by rewrite Hpap.
Qed.

(** One pass through the loop body never raises, and sets the summary of the
    paper at position [i]: to the placeholder when the [try] suite raised, to
    an answer of the model otherwise. *)
Lemma summarize_cases i s :
  ∃ v s', summarize env i s = (Ok tt, s') ∧
          papers s' = alter (<["summary" := v]>) i (papers s) ∧
          ((∃ e, fst (generate_summary env i s) = Raise e) → v = "Paper not available") ∧
          (v = "Paper not available" ∨
           ∃ prompt w w', generate_content_text env LLM prompt w = (Ok v, w')).
Proof.
  unfold summarize, try_except.
  destruct (generate_summary_cases i s)
    as [(e & s1 & -> & Hp)|(s1 & url & text & s2 & v & w & -> & _ & _ & Hgen & Hp)].
  - exists "Paper not available". eexists. split; [reflexivity|].
    split_and!; [|done|by left]. simpl. by rewrite Hp.
  - exists v, s1. split_and!; [done|done| |right; eauto].
    intros [e He]. done.
Qed.

(** The loop over the positions [i, i + n): it never raises; a paper outside
    the range is left as it was, a paper inside gains a summary and is
    otherwise left as it was. *)
Lemma summarize_range n : ∀ i s,
  ∃ s', for_ (seq i n) (summarize env) s = (Ok tt, s') ∧
        length (papers s') = length (papers s) ∧
        ∀ j p, papers s !! j = Some p →
          (i ≤ j < i + n →
             ∃ v, papers s' !! j = Some (<["summary" := v]> p) ∧
                  (v = "Paper not available" ∨
                   ∃ prompt w w', generate_content_text env LLM prompt w = (Ok v, w'))) ∧
          (¬ (i ≤ j < i + n) → papers s' !! j = Some p).
Proof.
  induction n as [|n IH]; intros i s.
  - exists s. split_and!; [done..|]. intros j p Hj. split; [lia|done].
  - destruct (summarize_cases i s) as (v & s1 & Hs & Hp1 & _ & Hv).
    destruct (IH (S i) s1) as (s' & Hfor & Hlen & Hall).
    exists s'. split_and!.
    + simpl. by rewrite (bind_Ok _ _ _ _ _ Hs).
    + rewrite Hlen, Hp1. apply length_alter.
    + intros j p Hj.
      destruct (decide (j = i)) as [->|Hne].
      * destruct (Hall i (<["summary" := v]> p)) as [_ Hout].
        { rewrite Hp1, list_lookup_alter_eq, Hj. done. }
        split; [|lia]. intros _. exists v. split; [apply Hout; lia|done].
      * destruct (Hall j p) as [Hin Hout].
        { rewrite Hp1, list_lookup_alter_ne by done. done. }
        split; intros ?; [apply Hin|apply Hout]; lia.
Qed.

Lemma cell10_unfold s :
  cell10 env s = for_ (seq 0 (length (papers s))) (summarize env) s.
Proof. reflexivity. Qed.

(** The loop seen from the paper at position [i]: the passes before it, its
    own pass, and the passes after it. *)
Lemma cell10_split s i :
  i < length (papers s) →
  cell10 env s
  = for_ (seq (S i) (length (papers s) - S i)) (summarize env)
      (snd (summarize env i (before_iteration env i s))).
Proof.
  intros Hi. rewrite cell10_unfold.
  replace (length (papers s)) with (i + S (length (papers s) - S i)) at 1 by lia.
  rewrite seq_app. cbn [seq plus].
  destruct (summarize_range i 0 s) as (s1 & H1 & _).
  rewrite for_app by (by rewrite H1).
  fold (before_iteration env i s).
  cbn [for_]. unfold bind at 1.
  destruct (summarize_cases i (before_iteration env i s)) as (v & s2 & -> & _).
  done.
Qed.

Lemma before_iteration_paper s i p :
  papers s !! i = Some p → papers (before_iteration env i s) !! i = Some p.
Proof.
  intros Hp. unfold before_iteration.
  destruct (summarize_range i 0 s) as (s1 & -> & _ & Hall).
  apply (Hall i p Hp). lia.
Qed.

(** C9.  The summarization loop ends normally on every list of papers; it
    leaves the length of the list unchanged, and the paper at each position
    is the paper that was there with its summary set, either to the
    placeholder or to an answer of the model, so that the title, the url and
    every other key are as before. *)
Theorem summarization_loop_invariant s :
  ∃ s', cell10 env s = (Ok tt, s') ∧
        length (papers s') = length (papers s) ∧
        ∀ j p, papers s !! j = Some p →
          ∃ v, papers s' !! j = Some (<["summary" := v]> p) ∧
               (<["summary" := v]> p) !! "summary" = Some v ∧
               (<["summary" := v]> p) !! "title" = p !! "title" ∧
               (<["summary" := v]> p) !! "url" = p !! "url" ∧
               (v = "Paper not available" ∨
                ∃ prompt w w', generate_content_text env LLM prompt w = (Ok v, w')).
Proof.
  rewrite cell10_unfold.
  destruct (summarize_range (length (papers s)) 0 s) as (s' & Hfor & Hlen & Hall).
  exists s'. split_and!; [done|done|].
  intros j p Hj. destruct (Hall j p Hj) as [Hin _].
  destruct Hin as (v & Hv & Hor).
  { apply lookup_lt_Some in Hj. lia. }
  exists v. split_and!; [done|by rewrite lookup_insert_eq|
                         by rewrite lookup_insert_ne|by rewrite lookup_insert_ne|done].
Qed.

(** The loop seen from one pass: whatever summary [v] the pass at position
    [i] stores, the loop ends normally, the paper at [i] ends with that
    summary, and every later paper is given a summary as well. *)
Lemma loop_after_pass s i p v s2 :
  papers s !! i = Some p →
  summarize env i (before_iteration env i s) = (Ok tt, s2) →
  papers s2 = alter (<["summary" := v]>) i (papers (before_iteration env i s)) →
  ∃ s', cell10 env s = (Ok tt, s') ∧
        papers s' !! i = Some (<["summary" := v]> p) ∧
        length (papers s') = length (papers s) ∧
        ∀ j q, i < j → papers s !! j = Some q →
          ∃ v', papers s' !! j = Some (<["summary" := v']> q).
Proof.
  intros Hp H2 Hp2.
  pose proof (lookup_lt_Some _ _ _ Hp) as Hi.
  rewrite (cell10_split s i Hi), H2. cbn [snd].
  destruct (summarize_range i 0 s) as (s1 & H1 & Hlen1 & Hall1).
  assert (before_iteration env i s = s1) as Hb by (unfold before_iteration; by rewrite H1).
  rewrite Hb in *.
  destruct (summarize_range (length (papers s) - S i) (S i) s2)
    as (s' & H3 & Hlen3 & Hall3).
  exists s'. split_and!.
  - done.
  - apply (Hall3 i); [|lia].
    rewrite Hp2, list_lookup_alter_eq.
    destruct (Hall1 i p Hp) as [_ Hout1]. by rewrite Hout1 by lia.
  - rewrite Hlen3, Hp2, length_alter. done.
  - intros j q Hj Hq.
    destruct (Hall3 j q) as [Hin _].
    { rewrite Hp2, list_lookup_alter_ne by lia.
      destruct (Hall1 j q Hq) as [_ Hout1]. by rewrite Hout1 by lia. }
    destruct Hin as (v' & Hv' & _); [|by exists v'].
    apply lookup_lt_Some in Hq. lia.
Qed.



(** C6, as amended.  When the extraction succeeds for the paper at position
    [i], the pass for that paper sends the model "gemini-1.5-flash" exactly
    one prompt: the instruction of the notebook ("Summarize this research
    article into one paragraph without formatting highlighting its strengths
    and weaknesses. ", with its final blank) followed by the whole extracted
    text. *)
Theorem prompt_submitted s i p url text s2 :
  papers s !! i = Some p →
  p !! "url" = Some url →
  extract_pdf env url (before_iteration env i s) = (Ok text, s2) →
  calls (snd (summarize env i (before_iteration env i s)))
  = calls (before_iteration env i s)
    ++ [UrlRetrieve url "pdf_file.pdf";
        GenerateContent "gemini-1.5-flash"
          ("Summarize this research article into one paragraph without formatting highlighting its strengths and weaknesses. "
           +:+ text)].
Proof.
  intros Hp Hurl Hext. fold INSTRUCTION.
  pose proof (before_iteration_paper s i p Hp) as Hpi.
  set (si := before_iteration env i s) in *.
  pose proof (paper_getitem_Ok i "url" si p url Hpi Hurl) as Hget.
  pose proof (extract_pdf_calls url si) as Hcalls.
  rewrite Hext in Hcalls. cbn [snd] in Hcalls.
  unfold summarize, try_except, generate_summary.
  rewrite (bind_Ok _ _ _ _ _ Hget), (bind_Ok _ _ _ _ _ Hext).
  unfold bind, outside.
  destruct (generate_content_text env LLM (INSTRUCTION +:+ text) (world s2))
    as [[summary|e] w]; cbn; rewrite Hcalls, <- (assoc_L (++)); done.
Qed.

End Cells.

(** ** Rendering (cells 12 and 14) *)

Section Rendering.
Context {World Page : Type} (env : services World Page).
Implicit Types s : notebook World.

Lemma finished_block paper s :
  finished paper = true →
  ∃ block, html_block paper s = (Ok block, s) ∧ html_block_of paper block.
Proof.
  unfold finished. intros ([t Ht] & [u Hu] & [m Hm])%bool_decide_eq_true.
  eexists. split.
  - unfold html_block, bind, getitem, ret. rewrite Hu, Ht, Hm. reflexivity.
  - exists t, u, m. done.
Qed.

Lemma finished_record paper s :
  finished paper = true →
  ∃ record, markdown_record paper s = (Ok record, s) ∧ markdown_record_of paper record.
Proof.
  unfold finished. intros ([t Ht] & [u Hu] & [m Hm])%bool_decide_eq_true.
  eexists. split.
  - unfold markdown_record, bind, getitem, ret. rewrite Hu, Ht, Hm. reflexivity.
  - exists t, u, m. done.
Qed.

(** The appending loop adds one block per paper behind what the file holds. *)
Lemma html_loop ps : ∀ s content,
  forallb finished ps = true →
  files s !! "papers.html" = Some content →
  ∃ blocks,
    Forall2 html_block_of ps blocks ∧
    for_ ps (λ paper, bind (html_block paper) (λ page, open_a_write "papers.html" page)) s
    = (Ok tt, set_files (<["papers.html" := content +:+ String.concat "" blocks]> (files s)) s).
Proof.
  induction ps as [|p ps IH]; intros s content Hfin Hfile.
  - exists []. split; [constructor|]. simpl. unfold ret.
    rewrite app_nil_r, insert_id by done. by destruct s.
  - simpl in Hfin. apply andb_true_iff in Hfin as [Hp Hfin].
    destruct (finished_block p s Hp) as (block & Hb & Hof).
    destruct (IH (set_files (<["papers.html" := content +:+ block]> (files s)) s)
                 (content +:+ block) Hfin) as (blocks & Hblocks & Hfor).
    { simpl. apply lookup_insert_eq. }
    exists (block :: blocks). split; [by constructor|].
    rewrite concat_empty_cons, <- app_assoc.
    cbn [for_]. unfold bind at 1. unfold bind at 1. rewrite Hb.
    unfold open_a_write at 1, modify. rewrite Hfile. cbn [default from_option id].
    rewrite Hfor. cbn [files set_files]. by rewrite insert_insert_eq.
Qed.

Lemma markdown_loop ps : ∀ s,
  forallb finished ps = true →
  ∃ records,
    Forall2 markdown_record_of ps records ∧
    for_ ps (λ paper, bind (markdown_record paper) (λ string, printmd string)) s
    = (Ok tt, set_display_data (display_data s ++ records) s).
Proof.
  induction ps as [|p ps IH]; intros s Hfin.
  - exists []. split; [constructor|]. simpl. unfold ret.
    rewrite (right_id_L [] (++)). by destruct s.
  - simpl in Hfin. apply andb_true_iff in Hfin as [Hp Hfin].
    destruct (finished_record p s Hp) as (record & Hb & Hof).
    destruct (IH (set_display_data (display_data s ++ [record]) s) Hfin)
      as (records & Hrecords & Hfor).
    exists (record :: records). split; [by constructor|].
    simpl. unfold bind at 1. unfold bind at 1. rewrite Hb.
    unfold printmd at 1, modify. rewrite Hfor. simpl.
    by rewrite <- (assoc_L (++)).
Qed.

(** Cell 12 after its first statement: the file holds the header alone. *)
Lemma cell12_unfold s :
  cell12 env s =
  bind (for_ (papers s)
          (λ paper, bind (html_block paper) (λ page, open_a_write "papers.html" page)))
       (λ _, open_a_write "papers.html" html_footer)
       (set_files (<["papers.html" := html_header (date_today env (world s))]> (files s)) s).
Proof. reflexivity. Qed.

Lemma cell14_unfold s :
  cell14 s =
  for_ (papers s) (λ paper, bind (markdown_record paper) (λ string, printmd string)) s.
Proof. reflexivity. Qed.

Lemma cell12_finished s :
  forallb finished (papers s) = true →
  ∃ blocks,
    Forall2 html_block_of (papers s) blocks ∧
    cell12 env s
    = (Ok tt,
       set_files (<["papers.html" :=
                      html_header (date_today env (world s))
                      +:+ String.concat "" blocks +:+ html_footer]> (files s)) s).
Proof.
  intros Hfin.
  set (page := html_header (date_today env (world s))).
  destruct (html_loop (papers s) (set_files (<["papers.html" := page]> (files s)) s)
              page Hfin) as (blocks & Hblocks & Hfor).
  { apply lookup_insert_eq. }
  exists blocks. split; [done|].
  rewrite cell12_unfold. fold page. unfold bind at 1. rewrite Hfor.
  unfold open_a_write, modify. cbn [files set_files].
  rewrite lookup_insert_eq, !insert_insert_eq. cbn [default from_option id].
  by rewrite app_assoc.
Qed.

(** C4.  For a sequence of k finished papers, cell 12 ends normally and
    papers.html holds the header (the fixed title heading, the date of the
    day and the model identifier), then k blocks, then the closing fragment;
    the i-th block is the heading with the link and the paragraph built from
    the url, the title and the summary of the i-th paper, verbatim.  The
    fields are not escaped: the file holds exactly k starts of a block when
    the date and the fields of the papers are free of markup. *)
Theorem html_rendering s :
  forallb finished (papers s) = true →
  ∃ blocks s',
    cell12 env s = (Ok tt, s') ∧
    length blocks = length (papers s) ∧
    Forall2 html_block_of (papers s) blocks ∧
    files s' !! "papers.html" =
      Some (html_header (date_today env (world s)) +:+ String.concat "" blocks
            +:+ html_footer) ∧
    (markup_free (date_today env (world s)) = true →
     forallb paper_markup_free (papers s) = true →
     occurrences block_opening
       (html_header (date_today env (world s)) +:+ String.concat "" blocks
        +:+ html_footer)
     = length (papers s)).
Proof.
  intros Hfin. destruct (cell12_finished s Hfin) as (blocks & Hblocks & Hrun).
  exists blocks. eexists. split_and!; [exact Hrun| |done| |].
  - symmetry. by eapply Forall2_length.
  - cbn [files set_files]. by rewrite lookup_insert_eq.
  - intros Htoday Hfree. by apply occurrences_page.
Qed.

(** Cell 12 does not look at what is displayed, cell 14 not at the files. *)
Lemma cell12_commutes d : commutes (set_display_data d) (cell12 env).
Proof.
  unfold cell12. repeat commutes_step.
Qed.

Lemma cell14_commutes fs : commutes (set_files fs) (cell14 (World:=World)).
Proof.
  unfold cell14. repeat commutes_step.
Qed.

(** Cell 12 changes the files only, cell 14 the displayed objects only. *)
Lemma cell12_frame s :
  snd (cell12 env s) = set_files (files (snd (cell12 env s))) s.
Proof.
  assert (preserves papers (cell12 env)) as H1
    by (unfold cell12, html_block; repeat preserves_step).
  assert (preserves display_data (cell12 env)) as H2
    by (unfold cell12, html_block; repeat preserves_step).
  assert (preserves stdout (cell12 env)) as H3
    by (unfold cell12, html_block; repeat preserves_step).
  assert (preserves calls (cell12 env)) as H4
    by (unfold cell12, html_block; repeat preserves_step).
  assert (preserves world (cell12 env)) as H5
    by (unfold cell12, html_block; repeat preserves_step).
  specialize (H1 s). specialize (H2 s). specialize (H3 s).
  specialize (H4 s). specialize (H5 s).
  destruct (snd (cell12 env s)), s. simpl in *. by subst.
Qed.

Lemma cell14_frame s :
  snd (cell14 s) = set_display_data (display_data (snd (cell14 s))) s.
Proof.
  assert (preserves papers (cell14 (World:=World))) as H1
    by (unfold cell14, markdown_record; repeat preserves_step).
  assert (preserves files (cell14 (World:=World))) as H2
    by (unfold cell14, markdown_record; repeat preserves_step).
  assert (preserves stdout (cell14 (World:=World))) as H3
    by (unfold cell14, markdown_record; repeat preserves_step).
  assert (preserves calls (cell14 (World:=World))) as H4
    by (unfold cell14, markdown_record; repeat preserves_step).
  assert (preserves world (cell14 (World:=World))) as H5
    by (unfold cell14, markdown_record; repeat preserves_step).
  specialize (H1 s). specialize (H2 s). specialize (H3 s).
  specialize (H4 s). specialize (H5 s).
  destruct (snd (cell14 s)), s. simpl in *. by subst.
Qed.

(** C8.  Neither sink changes [papers]; run in either order they reach the
    same notebook state, in which the files are those that cell 12 alone
    writes and the displayed objects those that cell 14 alone displays, and
    each ends as it does when run alone.  On finished papers both end
    normally, the file holds one block per paper and the display gains one
    record per paper, in the order of the sequence, each built from the
    title, the url and the summary of its paper. *)
Theorem sinks_independent s :
  forallb finished (papers s) = true →
  papers (snd (cell12 env s)) = papers s ∧
  papers (snd (cell14 s)) = papers s ∧
  snd (cell14 (snd (cell12 env s))) = snd (cell12 env (snd (cell14 s))) ∧
  files (snd (cell14 (snd (cell12 env s)))) = files (snd (cell12 env s)) ∧
  display_data (snd (cell12 env (snd (cell14 s)))) = display_data (snd (cell14 s)) ∧
  fst (cell14 (snd (cell12 env s))) = fst (cell14 s) ∧
  fst (cell12 env (snd (cell14 s))) = fst (cell12 env s) ∧
  ∃ blocks records,
    Forall2 html_block_of (papers s) blocks ∧
    Forall2 markdown_record_of (papers s) records ∧
    fst (cell12 env s) = Ok tt ∧ fst (cell14 s) = Ok tt ∧
    files (snd (cell12 env s)) !! "papers.html" =
      Some (html_header (date_today env (world s)) +:+ String.concat "" blocks
            +:+ html_footer) ∧
    display_data (snd (cell14 s)) = display_data s ++ records.
Proof.
  intros Hfin.
  pose proof (cell12_frame s) as F12. pose proof (cell14_frame s) as F14.
  assert (cell14 (snd (cell12 env s))
          = (fst (cell14 s), set_files (files (snd (cell12 env s))) (snd (cell14 s)))) as E1.
  { rewrite F12 at 1. apply cell14_commutes. }
  assert (cell12 env (snd (cell14 s))
          = (fst (cell12 env s),
             set_display_data (display_data (snd (cell14 s))) (snd (cell12 env s)))) as E2.
  { rewrite F14 at 1. apply cell12_commutes. }
  split_and!.
  - by rewrite F12.
  - by rewrite F14.
  - rewrite E1, E2. cbn [snd]. rewrite F12 at 2. rewrite F14 at 1. done.
  - by rewrite E1.
  - by rewrite E2.
  - by rewrite E1.
  - by rewrite E2.
  - destruct (cell12_finished s Hfin) as (blocks & Hblocks & H12).
    destruct (markdown_loop (papers s) s Hfin) as (records & Hrecords & H14).
    exists blocks, records. split_and!; try done.
    + by rewrite H12.
    + by rewrite cell14_unfold, H14.
    + rewrite H12. cbn [snd files set_files]. by rewrite lookup_insert_eq.
    + by rewrite cell14_unfold, H14.
Qed.

(** The order of the sinks does not matter on any papers, finished or not. *)
Lemma sinks_commute s :
  snd (cell14 (snd (cell12 env s))) = snd (cell12 env (snd (cell14 s))).
Proof.
  pose proof (cell12_frame s) as F12. pose proof (cell14_frame s) as F14.
  rewrite F12 at 1. rewrite cell14_commutes.
  rewrite F14 at 2. rewrite cell12_commutes.
  cbn [snd]. rewrite F12 at 2. rewrite F14 at 1. done.
Qed.

(** C10.  Cell 12 first opens papers.html for writing, which discards what
    the file held: whatever the earlier content, and also when there was no
    such file, the cell ends in the same way and in the same state; no other
    file is touched; and on finished papers the file holds exactly the
    header, the blocks of the papers and the closing fragment. *)
Theorem html_file_truncated s prior :
  forallb finished (papers s) = true →
  cell12 env (set_files (<["papers.html" := prior]> (files s)) s) = cell12 env s ∧
  cell12 env (set_files (delete "papers.html" (files s)) s) = cell12 env s ∧
  (∀ path, path ≠ "papers.html" → files (snd (cell12 env s)) !! path = files s !! path) ∧
  ∃ blocks,
    Forall2 html_block_of (papers s) blocks ∧
    files (snd (cell12 env (set_files (<["papers.html" := prior]> (files s)) s)))
      !! "papers.html" =
      Some (html_header (date_today env (world s)) +:+ String.concat "" blocks
            +:+ html_footer).
Proof.
  intros Hfin.
  assert (cell12 env (set_files (<["papers.html" := prior]> (files s)) s) = cell12 env s) as E.
  { rewrite !cell12_unfold. cbn [papers files world set_files].
    by rewrite insert_insert_eq. }
  split_and!.
  - done.
  - rewrite !cell12_unfold. cbn [papers files world set_files].
    by rewrite insert_delete_eq.
  - intros path Hne.
    assert (preserves (λ s, files s !! path) (cell12 env)) as H; [|apply H].
    unfold cell12, html_block. repeat preserves_step.
  - rewrite E. destruct (cell12_finished s Hfin) as (blocks & Hblocks & H12).
    exists blocks. split; [done|].
    rewrite H12. cbn [snd files set_files]. by rewrite lookup_insert_eq.
Qed.

End Rendering.

(** ** The sample run *)

Section SampleRun.
Import Sample.

(** The scenario of the specification: one download with the pages "Hello"
    and "World" gives the text of the two pages, a line feed after each. *)
Example sample_extract_pdf :
  fst (extract_pdf (env listing) "https://arxiv.org/pdf/1234" fresh) = Ok two_pages.
Proof. vm_compute. reflexivity. Qed.

Example sample_discovered :
  papers discovered !! 0 = Some Foo ∧ length (papers discovered) = 4.
Proof. vm_compute. done. Qed.

Example sample_summaries :
  (λ p : dict, p !! "summary") <$> papers summarized
  = [Some "A good paper."; Some "Paper not available";
     Some "Paper not available"; Some "A good paper."].
Proof. vm_compute. reflexivity. Qed.

Example sample_extract_paper :
  fst (extract_paper (env listing) "https://example.org/article" fresh)
  = Ok ("A Title" +:+ NL +:+ "first" +:+ NL +:+ "second" +:+ NL +:+ "third").
Proof. vm_compute. reflexivity. Qed.


Lemma discovery_records_witness :
  requests_get (env listing) BASE_URL (world fresh) = (Ok "<listing>", 0) ∧
  Forall (λ h3, is_Some (heading_anchor h3))
    (Bs4.find_all ["h3"] (html_parser (env listing) "<listing>")) ∧
  ∃ s', cell5 (env listing) fresh = (Ok tt, s') ∧
        length (papers s')
        = length (Bs4.find_all ["h3"] (html_parser (env listing) "<listing>")) ∧
        Forall2 listing_record
          (Bs4.find_all ["h3"] (html_parser (env listing) "<listing>")) (papers s').
Proof.
  assert (requests_get (env listing) BASE_URL (world fresh) = (Ok "<listing>", 0)) as H1
    by reflexivity.
  assert (Forall (λ h3, is_Some (heading_anchor h3))
            (Bs4.find_all ["h3"] (html_parser (env listing) "<listing>"))) as H2
    by (apply (bool_decide_unpack _); vm_compute; exact I).
  split; [exact H1|]. split; [exact H2|].
  exact (discovery_records (env listing) fresh "<listing>" 0 H1 H2).
Defined.

(** C2 as stated fails: for the [href] "/papers/papers/1234" the url is
    "https://arxiv.org/pdf/1234", since every "/papers" is removed, and not
    the prefix followed by the [href] without its leading "/papers". *)
Lemma discovery_url_not_leading_only :
  heading_anchor (h3 "/papers/papers/1234" "Foo") = Some ("Foo", "/papers/papers/1234") ∧
  (papers (snd (cell5 (env odd_listing) fresh)) !! 0 ≫= (λ p : dict, p !! "url"))
  = Some "https://arxiv.org/pdf/1234" ∧
  (papers (snd (cell5 (env odd_listing) fresh)) !! 0 ≫= (λ p : dict, p !! "url"))
  ≠ Some ("https://arxiv.org/pdf" +:+ without_leading "/papers" "/papers/papers/1234").
Proof. vm_compute. split_and!; [reflexivity|reflexivity|discriminate]. Qed.

Lemma extract_pdf_pages_witness :
  urlretrieve_body (env listing) "https://arxiv.org/pdf/1234" (world fresh)
  = (Ok "%PDF-1.7", 0) ∧
  pdf_pages (env listing) "%PDF-1.7" = Ok ["Hello"; "World"] ∧
  extract_text (env listing) <$> ["Hello"; "World"] = Ok <$> ["Hello"; "World"] ∧
  ∃ text s',
    extract_pdf (env listing) "https://arxiv.org/pdf/1234" fresh = (Ok text, s') ∧
    text = String.concat "" ((λ t, t +:+ NL) <$> ["Hello"; "World"]) ∧
    (["Hello"; "World"] ≠ [] → text = PyStr.join NL ["Hello"; "World"] +:+ NL) ∧
    String.length text = sum_list (String.length <$> ["Hello"; "World"]) + 2 ∧
    PyStr.count_char PyStr.LF text
    = sum_list (PyStr.count_char PyStr.LF <$> ["Hello"; "World"]) + 2.
Proof.
  split; [reflexivity|]. split; [reflexivity|]. split; [reflexivity|].
  exact (extract_pdf_pages (env listing) "https://arxiv.org/pdf/1234" fresh
           "%PDF-1.7" 0 ["Hello"; "World"] ["Hello"; "World"]
           eq_refl eq_refl eq_refl).
Defined.

Lemma html_rendering_witness :
  forallb finished (papers summarized) = true ∧
  markup_free (date_today (env listing) (world summarized)) = true ∧
  forallb paper_markup_free (papers summarized) = true ∧
  ∃ blocks s',
    cell12 (env listing) summarized = (Ok tt, s') ∧
    length blocks = length (papers summarized) ∧
    Forall2 html_block_of (papers summarized) blocks ∧
    files s' !! "papers.html" =
      Some (html_header (date_today (env listing) (world summarized))
            +:+ String.concat "" blocks +:+ html_footer) ∧
    occurrences block_opening
      (html_header (date_today (env listing) (world summarized))
       +:+ String.concat "" blocks +:+ html_footer)
    = 4.
Proof.
  assert (forallb finished (papers summarized) = true) as H by (vm_compute; reflexivity).
  assert (markup_free (date_today (env listing) (world summarized)) = true) as H1
    by (vm_compute; reflexivity).
  assert (forallb paper_markup_free (papers summarized) = true) as H2
    by (vm_compute; reflexivity).
  split; [exact H|]. split; [exact H1|]. split; [exact H2|].
  destruct (html_rendering (env listing) summarized H)
    as (blocks & s' & Hrun & Hlen & Hblocks & Hfile & Hcount).
  exists blocks, s'.
  split; [exact Hrun|]. split; [exact Hlen|]. split; [exact Hblocks|].
  split; [exact Hfile|]. exact (Hcount H1 H2).
Defined.

(** C4 as stated fails: the fields are written as they are, so a summary
    that holds the markup of a block adds an occurrence of the pattern.
    The file rendered for this one paper is the file rendered for two
    papers, and holds two blocks. *)
Lemma html_blocks_not_counted :
  forallb finished (papers injected) = true ∧
  length (papers injected) = 1 ∧
  fst (cell12 (env listing) injected) = Ok tt ∧
  files (snd (cell12 (env listing) injected)) !! "papers.html"
  = files (snd (cell12 (env listing) two_papers)) !! "papers.html" ∧
  occurrences block_opening
    <$> files (snd (cell12 (env listing) injected)) !! "papers.html"
  = Some 2.
Proof. split_and!; vm_compute; reflexivity. Qed.



(** C6 as stated fails: the prompt sent for the first paper is the
    instruction of the notebook followed by the text, which is not the
    instruction of the specification followed by the text. *)
Lemma prompt_not_as_stated :
  fst (extract_pdf (env listing) "https://arxiv.org/pdf/1234"
         (before_iteration (env listing) 0 discovered)) = Ok two_pages ∧
  last (calls (snd (summarize (env listing) 0 (before_iteration (env listing) 0 discovered))))
  = Some (GenerateContent "gemini-1.5-flash" (INSTRUCTION +:+ two_pages)) ∧
  last (calls (snd (summarize (env listing) 0 (before_iteration (env listing) 0 discovered))))
  ≠ Some (GenerateContent "gemini-1.5-flash" (stated_instruction +:+ two_pages)).
Proof. vm_compute. split_and!; [reflexivity|reflexivity|discriminate]. Qed.

Lemma prompt_submitted_witness :
  papers discovered !! 0 = Some Foo ∧
  Foo !! "url" = Some "https://arxiv.org/pdf/1234" ∧
  extract_pdf (env listing) "https://arxiv.org/pdf/1234"
    (before_iteration (env listing) 0 discovered)
  = (Ok two_pages,
     snd (extract_pdf (env listing) "https://arxiv.org/pdf/1234"
            (before_iteration (env listing) 0 discovered))) ∧
  calls (snd (summarize (env listing) 0 (before_iteration (env listing) 0 discovered)))
  = calls (before_iteration (env listing) 0 discovered)
    ++ [UrlRetrieve "https://arxiv.org/pdf/1234" "pdf_file.pdf";
        GenerateContent "gemini-1.5-flash" (INSTRUCTION +:+ two_pages)].
Proof.
  assert (papers discovered !! 0 = Some Foo) as H1 by (vm_compute; reflexivity).
  assert (Foo !! "url" = Some "https://arxiv.org/pdf/1234") as H2
    by (vm_compute; reflexivity).
  assert (extract_pdf (env listing) "https://arxiv.org/pdf/1234"
            (before_iteration (env listing) 0 discovered)
          = (Ok two_pages,
             snd (extract_pdf (env listing) "https://arxiv.org/pdf/1234"
                    (before_iteration (env listing) 0 discovered)))) as H3
    by (vm_compute; reflexivity).
  split; [exact H1|]. split; [exact H2|]. split; [exact H3|].
  exact (prompt_submitted (env listing) discovered 0 Foo _ _ _ H1 H2 H3).
Defined.

Lemma extract_paper_lines_witness :
  urlopen_read (env listing) "https://example.org/article" (world fresh)
  = (Ok "<article>", 0) ∧
  ∃ text s',
    extract_paper (env listing) "https://example.org/article" fresh = (Ok text, s') ∧
    Bs4.find_all ["script"; "style"]
      (Bs4.extract_all ["script"; "style"] (html_parser (env listing) "<article>")) = [] ∧
    (∀ url2 s2 html2 w2,
       urlopen_read (env listing) url2 (world s2) = (Ok html2, w2) →
       visible_text ["script"; "style"] (html_parser (env listing) html2)
       = visible_text ["script"; "style"] (html_parser (env listing) "<article>") →
       fst (extract_paper (env listing) url2 s2) = Ok text) ∧
    non_blank text
    = non_blank (visible_text ["script"; "style"] (html_parser (env listing) "<article>")) ∧
    PyStr.splitlines text
    = List.filter (λ piece, negb (String.eqb piece ""))
        ((PyStr.strip <$> PyStr.splitlines
            (visible_text ["script"; "style"] (html_parser (env listing) "<article>")))
           ≫= (λ line, PyStr.strip <$> PyStr.split "  " line)) ∧
    Forall (λ line, line ≠ "" ∧ trimmed line = true ∧ PyStr.strip line = line ∧
                    occurs "  " line = false)
      (PyStr.splitlines text) ∧
    text = PyStr.join NL (PyStr.splitlines text).
Proof.
  split; [reflexivity|].
  exact (extract_paper_lines (env listing) "https://example.org/article" fresh
           "<article>" 0 eq_refl).
Defined.

Lemma sinks_independent_witness :
  forallb finished (papers summarized) = true ∧
  snd (cell14 (snd (cell12 (env listing) summarized)))
  = snd (cell12 (env listing) (snd (cell14 summarized))) ∧
  papers (snd (cell12 (env listing) summarized)) = papers summarized ∧
  papers (snd (cell14 summarized)) = papers summarized.
Proof.
  assert (forallb finished (papers summarized) = true) as H by (vm_compute; reflexivity).
  split; [exact H|].
  pose proof (sinks_independent (env listing) summarized H) as (H1 & H2 & H3 & _).
  split; [exact H3|]. split; [exact H1|exact H2].
Defined.

Lemma html_file_truncated_witness :
  forallb finished (papers summarized) = true ∧
  files stale !! "papers.html" = Some "<html>yesterday</html>" ∧
  cell12 (env listing) stale = cell12 (env listing) summarized.
Proof.
  assert (forallb finished (papers summarized) = true) as H by (vm_compute; reflexivity).
  split; [exact H|]. split; [vm_compute; reflexivity|].
  exact (proj1 (html_file_truncated (env listing) summarized "<html>yesterday</html>" H)).
Defined.

End SampleRun.

(** * Further properties *)

(** ** Python strings, continued *)

Section MorePyStrFacts.
Import PyStr.

Lemma split_absent sep s : occurs sep s = false → split sep s = [s].
Proof.
  unfold split. induction s as [|c s IH]; [done|].
  intros H. cbn [occurs] in H. apply orb_false_iff in H as [Hp Ho].
  cbn [split_go]. rewrite Hp, (IH Ho). done.
Qed.

Lemma lstrip_blank s : all_chars isspace s = true → lstrip s = "".
Proof.
  induction s as [|c s IH]; [done|].
  simpl. intros [Hc Hs]%andb_true_iff. rewrite Hc. auto.
Qed.

Lemma strip_blank s : all_chars isspace s = true → strip s = "".
Proof. intros H. unfold strip. by rewrite lstrip_blank. Qed.

Lemma splitlines_cons_tail c s :
  is_linebreak c = true →
  ∃ rest, splitlines (String c s) = "" :: splitlines rest ∧
          (rest = s ∨ ∃ c', s = String c' rest).
Proof.
  intros Hc. cbn [splitlines]. rewrite Hc.
  destruct s as [|c' s'].
  - exists "". by split; [|left].
  - destruct (Ascii.eqb c CR && Ascii.eqb c' LF).
    + exists s'. split; [done|]. right. by exists c'.
    + exists (String c' s'). by split; [|left].
Qed.

(** The lines of a string hold characters of the string only. *)
Lemma all_chars_splitlines P s :
  all_chars P s = true → Forall (λ l, all_chars P l = true) (splitlines s).
Proof.
  remember (String.length s) as n eqn:Hn.
  revert s Hn. induction n as [n IH] using lt_wf_ind. intros s -> Hs.
  destruct s as [|c s]; [constructor|].
  simpl in Hs. apply andb_true_iff in Hs as [Hc Hs].
  destruct (is_linebreak c) eqn:Hlb.
  - destruct (splitlines_cons_tail c s Hlb) as (rest & -> & Hrest).
    constructor; [done|].
    destruct Hrest as [->|[c' ->]].
    + eapply IH; [|done|done]. simpl. lia.
    + simpl in Hs. apply andb_true_iff in Hs as [_ Hs].
      eapply IH; [|done|done]. simpl. lia.
  - cbn [splitlines]. rewrite Hlb.
    specialize (IH (String.length s) ltac:(simpl; lia) s eq_refl Hs).
    destruct (splitlines s) as [|l ls].
    + repeat constructor. simpl. by rewrite Hc.
    + apply Forall_cons in IH as [Hl Hls]. constructor; [|done].
      simpl. by rewrite Hc, Hl.
Qed.

Lemma filter_nonempty_blank chunks :
  Forall (λ c, c = "") chunks →
  List.filter (λ chunk, negb (String.eqb chunk "")) chunks = [].
Proof. induction 1 as [|c cs -> _ IH]; [done|]. simpl. exact IH. Qed.

Lemma filter_nonempty_all chunks :
  Forall (λ c, negb (String.eqb c "") = true) chunks →
  List.filter (λ chunk, negb (String.eqb chunk "")) chunks = chunks.
Proof.
  induction 1 as [|c cs Hc _ IH]; [done|]. simpl. rewrite Hc. by f_equal.
Qed.

(** Lines that are trimmed and free of double blanks pass through the
    stripping and splitting of [extract_paper] unchanged. *)
Lemma chunks_of_clean_lines lines :
  Forall (λ c, trimmed c = true ∧ occurs "  " c = false) lines →
  (strip <$> lines) ≫= (λ line, strip <$> split "  " line) = lines.
Proof.
  induction 1 as [|l ls [Ht Ho] _ IH]; [done|].
  rewrite fmap_cons, bind_cons, IH.
  rewrite (trimmed_strip l Ht), (split_absent _ _ Ho).
  cbn [fmap list_fmap]. by rewrite (trimmed_strip l Ht).
Qed.

End MorePyStrFacts.

(** ** Discovery and extraction, continued *)

Section MoreExtraction.
Context {World Page : Type} (env : services World Page).
Implicit Types s : notebook World.

(** What [find] returns is an element with the name asked for. *)
Lemma find_is_tag name h3 n :
  Bs4.find name h3 = Some n → ∃ attrs cs, n = Bs4.Tag name attrs cs.
Proof.
  destruct h3 as [|nm attrs cs]; [done|]. unfold Bs4.find, Bs4.find_all.
  intros H.
  assert (In n (List.filter (Bs4.is_tag_named [name]) (Bs4.forest_descendants cs))) as Hin.
  { destruct (List.filter _ _) as [|x l]; simplify_eq/=. by left. }
  apply List.filter_In in Hin as [_ Htag].
  destruct n as [|nm' attrs' cs']; [done|].
  cbn in Htag. apply bool_decide_eq_true_1 in Htag.
  apply list_elem_of_singleton in Htag as ->. eauto.
Qed.

(** A heading without a usable anchor makes the loop body raise, before it
    appends anything. *)
Lemma discover_malformed h3 s :
  heading_anchor h3 = None →
  ∃ e, discover h3 s = (Raise e, s) ∧
       (Bs4.find "a" h3 = None → e = AttributeError "text") ∧
       (is_Some (Bs4.find "a" h3) → e = KeyError "href").
Proof.
  unfold heading_anchor, discover. intros Ha.
  destruct (Bs4.find "a" h3) as [n|] eqn:Hf.
  - destruct (find_is_tag _ _ _ Hf) as (attrs & cs & ->).
    destruct (attrs !! "href") as [href|] eqn:Hh; [done|].
    exists (KeyError "href"). split_and!; [|done|done].
    unfold bind, dot_text, tag_getitem, ret, raise. by rewrite Hh.
  - exists (AttributeError "text"). split_and!; [done|done|].
    by intros [? ?].
Qed.

(** X1.  When the listing is fetched and the first heading without a usable
    anchor comes after k well-formed ones, discovery raises and [papers]
    holds exactly the k records of the headings before it: [AttributeError]
    when the heading has no anchor at all, [KeyError] for "href" when its
    first anchor has no [href].  The headings behind it are not looked at. *)
Theorem discovery_stops_at_malformed_heading s page w' pre h3 post :
  requests_get env BASE_URL (world s) = (Ok page, w') →
  Bs4.find_all ["h3"] (html_parser env page) = pre ++ h3 :: post →
  Forall (λ h, is_Some (heading_anchor h)) pre →
  heading_anchor h3 = None →
  ∃ e s', cell5 env s = (Raise e, s') ∧
          Forall2 listing_record pre (papers s') ∧
          (Bs4.find "a" h3 = None → e = AttributeError "text") ∧
          (is_Some (Bs4.find "a" h3) → e = KeyError "href").
Proof.
  intros Hget Hh3s Hpre Hbad.
  destruct (for_discover pre
              (set_papers [] (set_outside (calls s ++ [HttpGet BASE_URL]) w' s)) Hpre)
    as (new & Hfor & Hrecs).
  destruct (discover_malformed h3
              (set_papers new (set_outside (calls s ++ [HttpGet BASE_URL]) w' s)) Hbad)
    as (e & He & Hnone & Hsome).
  exists e, (set_papers new (set_outside (calls s ++ [HttpGet BASE_URL]) w' s)).
  split_and!; [|exact Hrecs|done|done].
  unfold cell5. unfold bind at 1. unfold outside. rewrite Hget.
  unfold bind at 1. unfold modify at 1. rewrite Hh3s.
  rewrite for_app by (by rewrite Hfor). rewrite Hfor. cbn [snd for_ papers set_papers app].
  by rewrite (bind_Raise _ _ _ _ _ He).
Qed.

(** X2.  An [href] in which "/papers" does not occur is not rejected: the
    loop body appends a paper whose url is "https://arxiv.org/pdf" followed
    by the whole [href]. *)
Theorem discover_keeps_other_href h3 s title href :
  heading_anchor h3 = Some (title, href) →
  occurs "/papers" href = false →
  discover h3 s
  = (Ok tt,
     set_papers
       (papers s ++ [<["url" := "https://arxiv.org/pdf" +:+ href]> (<["title" := title]> ∅)])
       s).
Proof.
  intros Ha Hno.
  destruct (discover_spec h3 s (mk_is_Some _ _ Ha)) as (paper & -> & t' & h' & Ha' & -> & _).
  rewrite Ha in Ha'. injection Ha' as <- <-.
  by rewrite (replace_absent _ _ _ Hno).
Qed.

(** What [extract_paper] returns for a page that is fetched. *)
Lemma extract_paper_run url s html w' :
  urlopen_read env url (world s) = (Ok html, w') →
  extract_paper env url s
  = (Ok (PyStr.join NL
           (List.filter (λ chunk, negb (String.eqb chunk ""))
              ((PyStr.strip <$> PyStr.splitlines
                  (visible_text ["script"; "style"] (html_parser env html)))
                 ≫= (λ line, PyStr.strip <$> PyStr.split "  " line)))),
     set_outside (calls s ++ [UrlOpen url]) w' s).
Proof.
  intros H. unfold extract_paper, bind, outside, ret.
  rewrite H. by rewrite get_text_extract_all.
Qed.

(** X3.  The cleaning of [extract_paper] is idempotent: a page whose text
    outside script and style elements is a text that [extract_paper] has
    returned gives that same text again. *)
Theorem extract_paper_fixed_point url s html w' url2 s2 html2 w2 :
  urlopen_read env url (world s) = (Ok html, w') →
  urlopen_read env url2 (world s2) = (Ok html2, w2) →
  Ok (visible_text ["script"; "style"] (html_parser env html2))
  = fst (extract_paper env url s) →
  fst (extract_paper env url2 s2) = fst (extract_paper env url s).
Proof.
  intros H1 H2 Hvis.
  rewrite (extract_paper_run url s html w' H1) in *.
  rewrite (extract_paper_run url2 s2 html2 w2 H2). cbn [fst] in *.
  injection Hvis as ->.
  pose proof (chunks_kept (visible_text ["script"; "style"] (html_parser env html))) as Hk.
  revert Hk.
  generalize (List.filter (λ chunk, negb (String.eqb chunk ""))
                ((PyStr.strip <$> PyStr.splitlines
                    (visible_text ["script"; "style"] (html_parser env html)))
                   ≫= (λ line, PyStr.strip <$> PyStr.split "  " line))) as kept.
  intros kept Hk.
  rewrite splitlines_join.
  2:{ eapply Forall_impl; [exact Hk|]. intros c [(Hlb & _ & _) Hne].
      split; [|done]. by intros ->. }
  rewrite chunks_of_clean_lines.
  2:{ eapply Forall_impl; [exact Hk|]. by intros c [(_ & Ht & Ho) _]. }
  rewrite filter_nonempty_all; [done|].
  eapply Forall_impl; [exact Hk|]. by intros c [_ Hne].
Qed.

(** X4.  A page that holds nothing but white space outside its script and
    style elements, or nothing at all, gives the empty text. *)
Theorem extract_paper_blank_page url s html w' :
  urlopen_read env url (world s) = (Ok html, w') →
  PyStr.all_chars PyStr.isspace
    (visible_text ["script"; "style"] (html_parser env html)) = true →
  fst (extract_paper env url s) = Ok "".
Proof.
  intros H Hblank. rewrite (extract_paper_run url s html w' H). cbn [fst].
  rewrite filter_nonempty_blank; [done|].
  apply Forall_bind, Forall_fmap.
  eapply Forall_impl; [exact (all_chars_splitlines _ _ Hblank)|].
  intros l Hl.
  change (Forall (λ c, c = "") (PyStr.strip <$> PyStr.split "  " (PyStr.strip l))).
  rewrite (strip_blank l Hl). by repeat constructor.
Qed.

(** The page loop stops at the first page whose text cannot be extracted. *)
Lemma read_pages_failure pre : ∀ texts page post e acc s,
  extract_text env <$> pre = Ok <$> texts →
  extract_text env page = Raise e →
  read_pages env (pre ++ page :: post) acc s = (Raise e, s).
Proof.
  induction pre as [|p pre IH]; intros [|t texts] page post e acc s Hpre He; try done.
  - cbn [app read_pages]. unfold bind, lift. by rewrite He.
  - rewrite !fmap_cons in Hpre. injection Hpre as Hp Hpre.
    cbn [app read_pages]. unfold bind, lift. rewrite Hp. eauto.
Qed.

(** The page loop does not look at the notebook state. *)
Lemma read_pages_result pages : ∀ acc s1 s2,
  fst (read_pages env pages acc s1) = fst (read_pages env pages acc s2).
Proof.
  induction pages as [|p pages IH]; intros acc s1 s2; [done|].
  cbn [read_pages]. unfold bind, lift. destruct (extract_text env p); [apply IH|done].
Qed.

(** X5.  [extract_pdf] reads back what it has just downloaded: whatever the
    files held before, and pdf_file.pdf in particular, the outcome is the
    same.  After the call pdf_file.pdf holds the body when the download has
    succeeded and the bytes already copied when it has raised half-way; its
    former content stays only when the download has raised before the file
    was opened. *)
Theorem extract_pdf_ignores_stale_file url s fs :
  fst (extract_pdf env url (set_files fs s)) = fst (extract_pdf env url s) ∧
  files (snd (extract_pdf env url (set_files fs s))) !! "pdf_file.pdf"
  = match fst (urlretrieve_body env url (world s)),
          urlretrieve_partial env url (world s) with
    | Ok body, _ => Some body
    | Raise _, Some bytes => Some bytes
    | Raise _, None => fs !! "pdf_file.pdf"
    end.
Proof.
  destruct (urlretrieve_body env url (world s)) as [[body|e] w] eqn:Hget.
  - rewrite (extract_pdf_downloaded env url s body w Hget).
    rewrite (extract_pdf_downloaded env url (set_files fs s) body w Hget).
    unfold bind, lift. cbn [fst].
    destruct (pdf_pages env body) as [pages|e]; cbn [fst snd].
    + split; [apply read_pages_result|].
      rewrite read_pages_state. cbn. by rewrite lookup_insert_eq.
    + split; [done|]. cbn. by rewrite lookup_insert_eq.
  - rewrite (extract_pdf_not_downloaded env url s e w Hget).
    rewrite (extract_pdf_not_downloaded env url (set_files fs s) e w Hget).
    cbn [fst snd world set_files].
    destruct (urlretrieve_partial env url (world s)) as [bytes|]; [|done].
    split; [done|]. cbn. by rewrite lookup_insert_eq.
Qed.

(** X6.  The only file that [extract_pdf] writes is pdf_file.pdf.  After a
    download that succeeds it holds the downloaded body, whether or not that
    body can be read as a PDF; after a download that raises half-way it
    holds the bytes copied so far; after one that raises before the file is
    opened the files are as before, so the file of an earlier paper stays. *)
Theorem extract_pdf_file_effect url s :
  files (snd (extract_pdf env url s))
  = match fst (urlretrieve_body env url (world s)),
          urlretrieve_partial env url (world s) with
    | Ok body, _ => <["pdf_file.pdf" := body]> (files s)
    | Raise _, Some bytes => <["pdf_file.pdf" := bytes]> (files s)
    | Raise _, None => files s
    end.
Proof.
  destruct (urlretrieve_body env url (world s)) as [[body|e] w] eqn:Hget.
  - rewrite (extract_pdf_downloaded env url s body w Hget).
    unfold bind, lift. cbn [fst].
    destruct (pdf_pages env body) as [pages|e]; [|done].
    by rewrite read_pages_state.
  - rewrite (extract_pdf_not_downloaded env url s e w Hget). cbn [fst snd].
    by destruct (urlretrieve_partial env url (world s)).
Qed.

(** X7.  When a page yields no text, [extract_pdf] raises the exception of
    that page and drops the text of the pages read before it; the download
    has been written to pdf_file.pdf by then. *)
Theorem extract_pdf_page_failure url s body w' pre page post texts e :
  urlretrieve_body env url (world s) = (Ok body, w') →
  pdf_pages env body = Ok (pre ++ page :: post) →
  extract_text env <$> pre = Ok <$> texts →
  extract_text env page = Raise e →
  fst (extract_pdf env url s) = Raise e ∧
  files (snd (extract_pdf env url s)) !! "pdf_file.pdf" = Some body.
Proof.
  intros Hget Hpdf Hpre He.
  assert (extract_pdf env url s
          = (Raise e,
             set_files (<["pdf_file.pdf" := body]> (files s))
               (set_outside (calls s ++ [UrlRetrieve url "pdf_file.pdf"]) w' s))) as ->.
  { rewrite (extract_pdf_downloaded env url s body w' Hget).
    unfold bind, lift. rewrite Hpdf.
    by rewrite (read_pages_failure pre texts page post e). }
  cbn [fst snd files set_files set_outside]. by rewrite lookup_insert_eq.
Qed.

End MoreExtraction.

(** ** Summarization, continued *)

Section MoreSummarization.
Context {World Page : Type} (env : services World Page).
Implicit Types s : notebook World.

Lemma paper_getitem_missing i key s p :
  papers s !! i = Some p → p !! key = None →
  paper_getitem i key s = (Raise (KeyError key), s).
Proof.
  intros Hp Hk. unfold paper_getitem, bind, gets, getitem, raise. by rewrite Hp, Hk.
Qed.

(** X8.  A paper without a "url" key costs no request: its pass sends
    nothing to the outside, prints "Generation failed", and the loop ends
    normally with the summary of that paper set to "Paper not available". *)
Theorem summary_without_url s i p :
  papers s !! i = Some p →
  p !! "url" = None →
  calls (snd (summarize env i (before_iteration env i s)))
  = calls (before_iteration env i s) ∧
  world (snd (summarize env i (before_iteration env i s)))
  = world (before_iteration env i s) ∧
  stdout (snd (summarize env i (before_iteration env i s)))
  = stdout (before_iteration env i s) ++ ["Generation failed"] ∧
  ∃ s', cell10 env s = (Ok tt, s') ∧
        papers s' !! i = Some (<["summary" := "Paper not available"]> p).
Proof.
  intros Hp Hurl.
  pose proof (before_iteration_paper env s i p Hp) as Hpi.
  set (si := before_iteration env i s) in *.
  pose proof (paper_getitem_missing i "url" si p Hpi Hurl) as Hget.
  assert (summarize env i si
          = (Ok tt,
             set_papers (alter (<["summary" := "Paper not available"]>) i (papers si))
               (set_stdout (stdout si ++ ["Generation failed"]) si))) as Hrun.
  { unfold summarize, try_except, generate_summary.
    by rewrite (bind_Raise _ _ _ _ _ Hget). }
  rewrite Hrun. split_and!; [done..|].
  destruct (loop_after_pass env s i p _ _ Hp Hrun eq_refl) as (s' & H & Hs' & _).
  by exists s'.
Qed.

(** X9.  When the extraction succeeds and the model answers the prompt, the
    pass prints nothing and the loop ends normally with that answer as the
    summary of the paper. *)
Theorem summary_success s i p url text s2 answer w :
  papers s !! i = Some p →
  p !! "url" = Some url →
  extract_pdf env url (before_iteration env i s) = (Ok text, s2) →
  generate_content_text env "gemini-1.5-flash" (INSTRUCTION +:+ text) (world s2)
  = (Ok answer, w) →
  stdout (snd (summarize env i (before_iteration env i s)))
  = stdout (before_iteration env i s) ∧
  ∃ s', cell10 env s = (Ok tt, s') ∧
        papers s' !! i = Some (<["summary" := answer]> p).
Proof.
  intros Hp Hurl Hext Hgen.
  pose proof (before_iteration_paper env s i p Hp) as Hpi.
  set (si := before_iteration env i s) in *.
  pose proof (paper_getitem_Ok i "url" si p url Hpi Hurl) as Hget.
  pose proof (extract_pdf_papers env url si) as Hpap.
  pose proof (extract_pdf_stdout env url si) as Hout.
  rewrite Hext in Hpap, Hout. cbn [snd] in Hpap, Hout.
  assert (summarize env i si
          = (Ok tt,
             set_papers (alter (<["summary" := answer]>) i (papers si))
               (set_outside
                  (calls s2 ++ [GenerateContent LLM (INSTRUCTION +:+ text)]) w s2)))
    as Hrun.
  { unfold summarize, try_except, generate_summary.
    rewrite (bind_Ok _ _ _ _ _ Hget), (bind_Ok _ _ _ _ _ Hext).
    unfold bind, outside. fold LLM in Hgen. rewrite Hgen.
    unfold paper_setitem, modify. cbn [papers set_outside]. by rewrite Hpap. }
  rewrite Hrun. split; [done|].
  destruct (loop_after_pass env s i p _ _ Hp Hrun eq_refl) as (s' & H & Hs' & _).
  by exists s'.
Qed.

(** What one pass sends and prints: at most one download and then at most
    one prompt, and at most one line. *)
Lemma summarize_effects i s :
  ∃ added k,
    calls (snd (summarize env i s)) = calls s ++ added ∧
    length added ≤ 2 ∧
    forallb summarization_call added = true ∧
    stdout (snd (summarize env i s)) = stdout s ++ replicate k "Generation failed" ∧
    k ≤ 1.
Proof.
  unfold summarize, try_except, generate_summary.
  pose proof (paper_getitem_state i "url" s) as Hst.
  destruct (paper_getitem i "url" s) as [[url|e] s0] eqn:Hurl; simpl in Hst; subst s0.
  2:{ rewrite (bind_Raise _ _ _ _ _ Hurl). exists [], 1. cbn.
      rewrite (right_id_L [] (++)). split_and!; [done|lia|done|done|lia]. }
  rewrite (bind_Ok _ _ _ _ _ Hurl).
  pose proof (extract_pdf_calls env url s) as Hcalls.
  pose proof (extract_pdf_stdout env url s) as Hout.
  destruct (extract_pdf env url s) as [[text|e] s2] eqn:Hext; cbn [snd] in Hcalls, Hout.
  2:{ rewrite (bind_Raise _ _ _ _ _ Hext).
      exists [UrlRetrieve url "pdf_file.pdf"], 1. cbn. rewrite Hcalls, Hout.
      split_and!; [done|lia|done|done|lia]. }
  rewrite (bind_Ok _ _ _ _ _ Hext). unfold bind, outside.
  assert (forallb summarization_call
            [UrlRetrieve url "pdf_file.pdf"; GenerateContent LLM (INSTRUCTION +:+ text)]
          = true) as Hshape.
  { cbn [forallb summarization_call]. by rewrite prefix_app. }
  destruct (generate_content_text env LLM (INSTRUCTION +:+ text) (world s2))
    as [[summary|e] w].
  - exists [UrlRetrieve url "pdf_file.pdf"; GenerateContent LLM (INSTRUCTION +:+ text)], 0.
    cbn [snd calls stdout paper_setitem modify set_papers set_outside replicate].
    rewrite Hcalls, Hout, <- (assoc_L (++)), (right_id_L [] (++)).
    split_and!; [done|simpl; lia|done|done|lia].
  - exists [UrlRetrieve url "pdf_file.pdf"; GenerateContent LLM (INSTRUCTION +:+ text)], 1.
    cbn [snd calls stdout generation_failed print paper_setitem modify bind
         set_papers set_stdout set_outside replicate].
    rewrite Hcalls, Hout, <- (assoc_L (++)).
    split_and!; [done|simpl; lia|done|done|lia].
Qed.

Lemma summarize_range_effects n : ∀ i s,
  ∃ added k,
    calls (snd (for_ (seq i n) (summarize env) s)) = calls s ++ added ∧
    length added ≤ 2 * n ∧
    forallb summarization_call added = true ∧
    stdout (snd (for_ (seq i n) (summarize env) s))
    = stdout s ++ replicate k "Generation failed" ∧
    k ≤ n.
Proof.
  induction n as [|n IH]; intros i s.
  - exists [], 0. cbn. rewrite !(right_id_L [] (++)). split_and!; [done|lia|done|done|lia].
  - destruct (summarize_cases env i s) as (v & s1 & Hs & _).
    destruct (summarize_effects i s) as (a1 & k1 & Hc1 & Hl1 & Hf1 & Ho1 & Hk1).
    rewrite Hs in Hc1, Ho1. cbn [snd] in Hc1, Ho1.
    destruct (IH (S i) s1) as (a2 & k2 & Hc2 & Hl2 & Hf2 & Ho2 & Hk2).
    exists (a1 ++ a2), (k1 + k2).
    cbn [seq for_]. rewrite (bind_Ok _ _ _ _ _ Hs).
    rewrite Hc2, Ho2, Hc1, Ho1, <- !(assoc_L (++)), replicate_add.
    split_and!; [done| |by rewrite forallb_app, Hf1, Hf2|done|lia].
    rewrite List.length_app. lia.
Qed.

(** X10.  The loop sends the outside nothing but downloads to pdf_file.pdf
    and prompts to "gemini-1.5-flash" that start with the instruction, and
    at most two requests per paper: it never fetches a page or a listing. *)
Theorem summarization_trace s :
  ∃ added,
    calls (snd (cell10 env s)) = calls s ++ added ∧
    length added ≤ 2 * length (papers s) ∧
    forallb summarization_call added = true.
Proof.
  rewrite cell10_unfold.
  destruct (summarize_range_effects (length (papers s)) 0 s)
    as (added & k & Hc & Hl & Hf & _).
  by exists added.
Qed.

(** X11.  All that the loop writes to standard output is the line
    "Generation failed", at most once per paper.  (The progress bar of
    [tqdm] goes to standard error.) *)
Theorem summarization_stdout s :
  ∃ k, k ≤ length (papers s) ∧
       stdout (snd (cell10 env s)) = stdout s ++ replicate k "Generation failed".
Proof.
  rewrite cell10_unfold.
  destruct (summarize_range_effects (length (papers s)) 0 s)
    as (added & k & _ & _ & _ & Ho & Hk).
  by exists k.
Qed.

Lemma extract_pdf_preserves {X} (f : notebook World → X) url :
  (∀ cs w s, f (set_outside cs w s) = f s) →
  (∀ data s, f (set_files (<["pdf_file.pdf" := data]> (files s)) s) = f s) →
  preserves f (extract_pdf env url).
Proof.
  intros Hout Hfile. unfold extract_pdf, PdfReader.
  apply preserves_bind; [by apply urlretrieve_preserves|intros _].
  repeat (apply preserves_bind; [|intros ?]).
  - done.
  - destruct (_ !! _); done.
  - intros s. by rewrite read_pages_state.
Qed.

Lemma summarize_preserves {X} (f : notebook World → X) i :
  (∀ cs w s, f (set_outside cs w s) = f s) →
  (∀ data s, f (set_files (<["pdf_file.pdf" := data]> (files s)) s) = f s) →
  (∀ ps s, f (set_papers ps s) = f s) →
  (∀ o s, f (set_stdout o s) = f s) →
  preserves f (summarize env i).
Proof.
  intros Hout Hfile Hpap Hstd. unfold summarize, generate_summary, generation_failed.
  apply preserves_try.
  - apply preserves_bind; [intros s; by rewrite paper_getitem_state|intros url].
    apply preserves_bind; [by apply extract_pdf_preserves|intros text].
    apply preserves_bind; [by apply preserves_outside|intros summary].
    intros s. apply Hpap.
  - apply preserves_bind; [intros s; apply Hstd|intros _].
    intros s. apply Hpap.
Qed.

(** X12.  The loop displays nothing and writes no file other than
    pdf_file.pdf. *)
Theorem summarization_frame s :
  display_data (snd (cell10 env s)) = display_data s ∧
  ∀ path, path ≠ "pdf_file.pdf" →
    files (snd (cell10 env s)) !! path = files s !! path.
Proof.
  split.
  - assert (preserves display_data (cell10 env)) as H; [|apply H].
    unfold cell10. apply preserves_bind; [done|intros ps].
    apply preserves_for. intros i. by apply summarize_preserves.
  - intros path Hne.
    assert (preserves (λ s, files s !! path) (cell10 env)) as H; [|apply H].
    unfold cell10. apply preserves_bind; [done|intros ps].
    apply preserves_for. intros i. apply summarize_preserves; try done.
    intros data s'. cbn. by rewrite lookup_insert_ne.
Qed.

End MoreSummarization.

(** ** Rendering and the whole pipeline, continued *)

Section MoreRendering.
Context {World Page : Type} (env : services World Page).
Implicit Types s : notebook World.

Lemma html_block_missing paper key s :
  first_missing ["url"; "title"; "summary"] paper = Some key →
  html_block paper s = (Raise (KeyError key), s).
Proof.
  unfold first_missing, html_block, bind, getitem, raise, ret. cbn [List.find].
  destruct (paper !! "url") eqn:Hu; cbn; [|by intros [= <-]].
  destruct (paper !! "title") eqn:Ht; cbn; [|by intros [= <-]].
  destruct (paper !! "summary") eqn:Hm; cbn; [done|by intros [= <-]].
Qed.

Lemma markdown_record_missing paper key s :
  first_missing ["title"; "url"; "summary"] paper = Some key →
  markdown_record paper s = (Raise (KeyError key), s).
Proof.
  unfold first_missing, markdown_record, bind, getitem, raise, ret. cbn [List.find].
  destruct (paper !! "title") eqn:Ht; cbn; [|by intros [= <-]].
  destruct (paper !! "url") eqn:Hu; cbn; [|by intros [= <-]].
  destruct (paper !! "summary") eqn:Hm; cbn; [done|by intros [= <-]].
Qed.

(** X13.  When the first paper that lacks a key comes after k finished
    ones, cell 12 raises [KeyError] for the first of "url", "title" and
    "summary" that this paper lacks, and leaves papers.html cut short: the
    header and the k blocks of the papers before it, without the closing
    fragment. *)
Theorem html_rendering_missing_key s pre p post key :
  papers s = pre ++ p :: post →
  forallb finished pre = true →
  first_missing ["url"; "title"; "summary"] p = Some key →
  ∃ blocks s',
    cell12 env s = (Raise (KeyError key), s') ∧
    Forall2 html_block_of pre blocks ∧
    files s' !! "papers.html"
    = Some (html_header (date_today env (world s)) +:+ String.concat "" blocks).
Proof.
  intros Hps Hpre Hkey.
  set (page := html_header (date_today env (world s))).
  destruct (html_loop pre (set_files (<["papers.html" := page]> (files s)) s) page Hpre)
    as (blocks & Hblocks & Hfor).
  { apply lookup_insert_eq. }
  exists blocks. eexists. split_and!; [|exact Hblocks|].
  - rewrite cell12_unfold, Hps. fold page. unfold bind at 1.
    rewrite for_app by (by rewrite Hfor). rewrite Hfor. cbn [snd for_].
    unfold bind at 1. unfold bind at 1.
    rewrite (html_block_missing p key _ Hkey). reflexivity.
  - cbn [files set_files]. by rewrite lookup_insert_eq.
Qed.

(** X14.  When the first paper that lacks a key comes after k finished
    ones, cell 14 displays the k records of the papers before it and then
    raises [KeyError] for the first of "title", "url" and "summary" that
    this paper lacks. *)
Theorem markdown_display_missing_key s pre p post key :
  papers s = pre ++ p :: post →
  forallb finished pre = true →
  first_missing ["title"; "url"; "summary"] p = Some key →
  ∃ records,
    cell14 s = (Raise (KeyError key), set_display_data (display_data s ++ records) s) ∧
    Forall2 markdown_record_of pre records.
Proof.
  intros Hps Hpre Hkey.
  destruct (markdown_loop pre s Hpre) as (records & Hrecords & Hfor).
  exists records. split; [|exact Hrecords].
  rewrite cell14_unfold, Hps.
  rewrite for_app by (by rewrite Hfor). rewrite Hfor. cbn [snd for_].
  unfold bind at 1. unfold bind at 1.
  by rewrite (markdown_record_missing p key _ Hkey).
Qed.

(** The appending loop touches papers.html only. *)
Lemma html_loop_files ps : ∀ s F c,
  files s = <["papers.html" := c]> F →
  ∃ c', files (snd (for_ ps (λ paper, bind (html_block paper)
                                        (λ page, open_a_write "papers.html" page)) s))
        = <["papers.html" := c']> F.
Proof.
  induction ps as [|p ps IH]; intros s F c Hs; [by exists c|].
  cbn [for_]. unfold bind at 1. unfold bind at 1.
  assert (snd (html_block p s) = s) as Hst.
  { assert (preserves id (html_block (World:=World) p)) as H; [|apply H].
    unfold html_block. repeat preserves_step. }
  destruct (html_block p s) as [[block|e] s0]; cbn [snd] in Hst; subst s0.
  - unfold open_a_write at 1, modify.
    apply (IH _ F (default "" (files s !! "papers.html") +:+ block)).
    cbn [files set_files]. by rewrite Hs, insert_insert_eq.
  - by exists c.
Qed.

Lemma cell12_files s :
  ∃ c, files (snd (cell12 env s)) = <["papers.html" := c]> (files s).
Proof.
  rewrite cell12_unfold.
  destruct (html_loop_files (papers s)
              (set_files (<["papers.html" := html_header (date_today env (world s))]>
                            (files s)) s)
              (files s) (html_header (date_today env (world s))) eq_refl) as (c' & Hc').
  unfold bind.
  destruct (for_ _ _ _) as [[[]|e] s1]; cbn [snd] in Hc'.
  - unfold open_a_write, modify. cbn [snd files set_files].
    rewrite Hc', insert_insert_eq. eauto.
  - by exists c'.
Qed.

(** X15.  Cell 12 is idempotent: run a second time, on the state that the
    first run left, it ends in the same way and in the same state, on any
    papers.  The file is written afresh, not appended to. *)
Theorem html_sink_idempotent s :
  cell12 env (snd (cell12 env s)) = cell12 env s.
Proof.
  destruct (cell12_files s) as (c & Hc).
  rewrite (cell12_frame env s) at 1. rewrite Hc.
  rewrite !cell12_unfold. cbn [papers files world set_files].
  by rewrite insert_insert_eq.
Qed.

Lemma markdown_record_of_unique ps : ∀ rs1 rs2,
  Forall2 markdown_record_of ps rs1 → Forall2 markdown_record_of ps rs2 → rs1 = rs2.
Proof.
  induction ps as [|p ps IH]; intros rs1 rs2 H1 H2.
  - apply Forall2_nil_inv_l in H1, H2. by subst.
  - apply Forall2_cons_inv_l in H1 as (r1 & rs1' & Hr1 & Hrs1 & ->).
    apply Forall2_cons_inv_l in H2 as (r2 & rs2' & Hr2 & Hrs2 & ->).
    f_equal; [|by apply IH].
    destruct Hr1 as (t1 & u1 & m1 & Ht1 & Hu1 & Hm1 & ->).
    destruct Hr2 as (t2 & u2 & m2 & Ht2 & Hu2 & Hm2 & ->).
    by simplify_eq.
Qed.

(** X16.  Cell 14 is not idempotent: run twice on finished papers, it ends
    normally both times and the display holds the records of the papers
    twice over, each run adding the same records in the same order. *)
Theorem markdown_sink_accumulates s :
  forallb finished (papers s) = true →
  ∃ records,
    Forall2 markdown_record_of (papers s) records ∧
    cell14 s = (Ok tt, set_display_data (display_data s ++ records) s) ∧
    cell14 (snd (cell14 s))
    = (Ok tt, set_display_data (display_data s ++ records ++ records) s).
Proof.
  intros Hfin.
  destruct (markdown_loop (papers s) s Hfin) as (records & Hrecords & H1).
  destruct (markdown_loop (papers s) (set_display_data (display_data s ++ records) s) Hfin)
    as (records' & Hrecords' & H2).
  rewrite (markdown_record_of_unique _ _ _ Hrecords' Hrecords) in H2.
  exists records. split_and!; [done|by rewrite cell14_unfold|].
  rewrite (cell14_unfold s), H1. cbn [snd]. rewrite cell14_unfold.
  cbn [papers set_display_data]. rewrite H2.
  cbn [display_data set_display_data]. by rewrite <- (assoc_L (++)).
Qed.

Lemma forallb_Forall {A} (f : A → bool) l :
  Forall (λ x, f x = true) l → forallb f l = true.
Proof. induction 1 as [|x l Hx _ IH]; [done|]. simpl. by rewrite Hx, IH. Qed.

Lemma listing_record_summarized h3 paper v :
  listing_record h3 paper → finished (<["summary" := v]> paper) = true.
Proof.
  intros (title & href & _ & -> & _). apply bool_decide_eq_true_2.
  split_and!; eexists.
  - rewrite lookup_insert_ne by done. rewrite lookup_insert_ne by done.
    apply lookup_insert_eq.
  - rewrite lookup_insert_ne by done. apply lookup_insert_eq.
  - apply lookup_insert_eq.
Qed.

(** X17.  The cells compose: when the listing is fetched and every heading
    has an anchor with an [href], discovery, summarization, the HTML sink
    and the Markdown sink all end normally, whatever downloads and model
    calls fail in between; the N papers are all finished, the file holds N
    blocks and N records are displayed. *)
Theorem pipeline_runs_to_completion s page w' :
  requests_get env BASE_URL (world s) = (Ok page, w') →
  Forall (λ h3, is_Some (heading_anchor h3))
    (Bs4.find_all ["h3"] (html_parser env page)) →
  ∃ s1 s2 s3 s4 blocks records,
    cell5 env s = (Ok tt, s1) ∧
    cell10 env s1 = (Ok tt, s2) ∧
    cell12 env s2 = (Ok tt, s3) ∧
    cell14 s3 = (Ok tt, s4) ∧
    papers s4 = papers s2 ∧
    forallb finished (papers s2) = true ∧
    length (papers s2) = length (Bs4.find_all ["h3"] (html_parser env page)) ∧
    Forall2 html_block_of (papers s2) blocks ∧
    files s4 !! "papers.html"
    = Some (html_header (date_today env (world s2)) +:+ String.concat "" blocks
            +:+ html_footer) ∧
    Forall2 markdown_record_of (papers s2) records ∧
    display_data s4 = display_data s ++ records.
Proof.
  intros Hget Hwf.
  set (h3s := Bs4.find_all ["h3"] (html_parser env page)) in *.
  set (s0 := set_papers [] (set_outside (calls s ++ [HttpGet BASE_URL]) w' s)).
  destruct (for_discover h3s s0 Hwf) as (new & Hfor & Hrecs).
  set (s1 := set_papers (papers s0 ++ new) s0) in *.
  assert (cell5 env s = (Ok tt, s1)) as H5.
  { unfold cell5. unfold bind at 1. unfold outside. rewrite Hget.
    unfold bind, modify. fold h3s. fold s0. by rewrite Hfor. }
  destruct (summarize_range env (length (papers s1)) 0 s1) as (s2 & H10 & Hlen & Hall).
  assert (forallb finished (papers s2) = true) as Hfin.
  { apply forallb_Forall, Forall_lookup. intros j p' Hj.
    assert (j < length (papers s1)) as Hlt by (rewrite <- Hlen; by eapply lookup_lt_Some).
    destruct (lookup_lt_is_Some_2 _ _ Hlt) as [p Hp].
    destruct (Hall j p Hp) as [Hin _].
    destruct Hin as (v & Hv & _); [lia|].
    rewrite Hj in Hv. injection Hv as ->.
    destruct (Forall2_lookup_r _ _ _ j p Hrecs Hp) as (h3 & _ & Hrec).
    by eapply listing_record_summarized. }
  destruct (cell12_finished env s2 Hfin) as (blocks & Hblocks & H12).
  set (s3 := set_files _ s2) in H12.
  destruct (markdown_loop (papers s2) s3 Hfin) as (records & Hrecords & H14).
  exists s1, s2, s3. eexists. exists blocks, records.
  split_and!; [exact H5|by rewrite cell10_unfold|exact H12|by rewrite cell14_unfold|
               done|exact Hfin| |exact Hblocks| |exact Hrecords|].
  - rewrite Hlen. cbn. symmetry. by eapply Forall2_length.
  - cbn [files set_display_data]. subst s3. cbn [files set_files].
    by rewrite lookup_insert_eq.
  - cbn [display_data set_display_data]. subst s3.
    cbn [display_data set_files].
    assert (preserves display_data (cell10 env)) as Hd.
    { unfold cell10. apply preserves_bind; [done|intros ps].
      apply preserves_for. intros i. by apply summarize_preserves. }
    specialize (Hd s1). rewrite cell10_unfold, H10 in Hd. cbn [snd] in Hd.
    by rewrite Hd.
Qed.

End MoreRendering.

(** ** Further sample runs *)

Section MoreSampleRuns.
Import Sample.

Example sample_bare_anchor :
  fst (discover Scenario.bare_anchor_heading fresh) = Raise (KeyError "href").
Proof. vm_compute. reflexivity. Qed.

Example sample_broken_download :
  extract_pdf Scenario.env "https://arxiv.org/pdf/0000"
    (set_files {[ "pdf_file.pdf" := "%PDF-1.4" ]} fresh)
  = (Raise (ServiceError "retrieval incomplete"),
     Notebook [] {[ "pdf_file.pdf" := "%PDF-" ]} [] []
       [UrlRetrieve "https://arxiv.org/pdf/0000" "pdf_file.pdf"] 0).
Proof. vm_compute. reflexivity. Qed.

Example sample_render_before_summarizing :
  fst (cell12 (env listing) discovered) = Raise (KeyError "summary") ∧
  files (snd (cell12 (env listing) discovered)) !! "papers.html"
  = Some (html_header "2024-11-05").
Proof. vm_compute. done. Qed.

Lemma discovery_stops_at_malformed_heading_witness :
  requests_get (env Scenario.broken_listing) BASE_URL (world fresh) = (Ok "<listing>", 0) ∧
  Bs4.find_all ["h3"] (html_parser (env Scenario.broken_listing) "<listing>")
  = [h3 "/papers/1234" "Foo"] ++ Scenario.plain_heading :: [h3 "/papers/9012" "Qux"] ∧
  Forall (λ h, is_Some (heading_anchor h)) [h3 "/papers/1234" "Foo"] ∧
  heading_anchor Scenario.plain_heading = None ∧
  ∃ e s', cell5 (env Scenario.broken_listing) fresh = (Raise e, s') ∧
          Forall2 listing_record [h3 "/papers/1234" "Foo"] (papers s') ∧
          (Bs4.find "a" Scenario.plain_heading = None → e = AttributeError "text") ∧
          (is_Some (Bs4.find "a" Scenario.plain_heading) → e = KeyError "href").
Proof.
  assert (requests_get (env Scenario.broken_listing) BASE_URL (world fresh)
          = (Ok "<listing>", 0)) as H1 by reflexivity.
  assert (Bs4.find_all ["h3"] (html_parser (env Scenario.broken_listing) "<listing>")
          = [h3 "/papers/1234" "Foo"] ++ Scenario.plain_heading :: [h3 "/papers/9012" "Qux"])
    as H2 by (vm_compute; reflexivity).
  assert (Forall (λ h, is_Some (heading_anchor h)) [h3 "/papers/1234" "Foo"]) as H3
    by (apply (bool_decide_unpack _); vm_compute; exact I).
  assert (heading_anchor Scenario.plain_heading = None) as H4 by (vm_compute; reflexivity).
  split; [exact H1|]. split; [exact H2|]. split; [exact H3|]. split; [exact H4|].
  exact (discovery_stops_at_malformed_heading (env Scenario.broken_listing) fresh
           "<listing>" 0 _ _ _ H1 H2 H3 H4).
Defined.

Lemma discover_keeps_other_href_witness :
  heading_anchor Scenario.external_heading = Some ("Blog", "https://example.org/blog") ∧
  occurs "/papers" "https://example.org/blog" = false ∧
  discover Scenario.external_heading fresh
  = (Ok tt,
     set_papers
       (papers fresh
        ++ [<["url" := "https://arxiv.org/pdf" +:+ "https://example.org/blog"]>
              (<["title" := "Blog"]> ∅)])
       fresh).
Proof.
  assert (heading_anchor Scenario.external_heading
          = Some ("Blog", "https://example.org/blog")) as H1 by (vm_compute; reflexivity).
  assert (occurs "/papers" "https://example.org/blog" = false) as H2
    by (vm_compute; reflexivity).
  split; [exact H1|]. split; [exact H2|].
  exact (discover_keeps_other_href Scenario.external_heading fresh _ _ H1 H2).
Defined.

Lemma extract_paper_fixed_point_witness :
  urlopen_read Scenario.env "article" (world fresh) = (Ok "article", 0) ∧
  urlopen_read Scenario.env "cleaned" (world fresh) = (Ok "cleaned", 0) ∧
  Ok (visible_text ["script"; "style"] (html_parser Scenario.env "cleaned"))
  = fst (extract_paper Scenario.env "article" fresh) ∧
  fst (extract_paper Scenario.env "cleaned" fresh)
  = fst (extract_paper Scenario.env "article" fresh).
Proof.
  assert (Ok (visible_text ["script"; "style"] (html_parser Scenario.env "cleaned"))
          = fst (extract_paper Scenario.env "article" fresh)) as H3
    by (vm_compute; reflexivity).
  split; [reflexivity|]. split; [reflexivity|]. split; [exact H3|].
  exact (extract_paper_fixed_point Scenario.env "article" fresh "article" 0
           "cleaned" fresh "cleaned" 0 eq_refl eq_refl H3).
Defined.

Lemma extract_paper_blank_page_witness :
  urlopen_read Scenario.env "blank" (world fresh) = (Ok "blank", 0) ∧
  PyStr.all_chars PyStr.isspace
    (visible_text ["script"; "style"] (html_parser Scenario.env "blank")) = true ∧
  fst (extract_paper Scenario.env "blank" fresh) = Ok "".
Proof.
  assert (PyStr.all_chars PyStr.isspace
            (visible_text ["script"; "style"] (html_parser Scenario.env "blank")) = true)
    as H2 by (vm_compute; reflexivity).
  split; [reflexivity|]. split; [exact H2|].
  exact (extract_paper_blank_page Scenario.env "blank" fresh "blank" 0 eq_refl H2).
Defined.

Lemma extract_pdf_page_failure_witness :
  urlretrieve_body Scenario.env "https://arxiv.org/pdf/1234" (world fresh)
  = (Ok "%PDF-1.4", 0) ∧
  pdf_pages Scenario.env "%PDF-1.4" = Ok (["Hello"] ++ "scanned" :: ["World"]) ∧
  extract_text Scenario.env <$> ["Hello"] = Ok <$> ["Hello"] ∧
  extract_text Scenario.env "scanned" = Raise (ServiceError "no text layer") ∧
  fst (extract_pdf Scenario.env "https://arxiv.org/pdf/1234" fresh)
  = Raise (ServiceError "no text layer") ∧
  files (snd (extract_pdf Scenario.env "https://arxiv.org/pdf/1234" fresh))
    !! "pdf_file.pdf" = Some "%PDF-1.4".
Proof.
  split; [reflexivity|]. split; [reflexivity|]. split; [reflexivity|].
  split; [reflexivity|].
  exact (extract_pdf_page_failure Scenario.env "https://arxiv.org/pdf/1234" fresh
           "%PDF-1.4" 0 ["Hello"] "scanned" ["World"] ["Hello"] _
           eq_refl eq_refl eq_refl eq_refl).
Defined.

Lemma summary_without_url_witness :
  papers Scenario.without_url !! 0 = Some Scenario.untitled ∧
  Scenario.untitled !! "url" = None ∧
  calls (snd (summarize (env listing) 0
                (before_iteration (env listing) 0 Scenario.without_url)))
  = calls (before_iteration (env listing) 0 Scenario.without_url) ∧
  ∃ s', cell10 (env listing) Scenario.without_url = (Ok tt, s') ∧
        papers s' !! 0
        = Some (<["summary" := "Paper not available"]> Scenario.untitled).
Proof.
  assert (papers Scenario.without_url !! 0 = Some Scenario.untitled) as H1
    by (vm_compute; reflexivity).
  assert (Scenario.untitled !! "url" = None) as H2 by (vm_compute; reflexivity).
  split; [exact H1|]. split; [exact H2|].
  pose proof (summary_without_url (env listing) Scenario.without_url 0 _ H1 H2)
    as (Hc & _ & _ & Hloop).
  split; [exact Hc|exact Hloop].
Defined.

Lemma summary_success_witness :
  papers discovered !! 0 = Some Foo ∧
  Foo !! "url" = Some "https://arxiv.org/pdf/1234" ∧
  extract_pdf (env listing) "https://arxiv.org/pdf/1234"
    (before_iteration (env listing) 0 discovered)
  = (Ok two_pages,
     snd (extract_pdf (env listing) "https://arxiv.org/pdf/1234"
            (before_iteration (env listing) 0 discovered))) ∧
  generate_content_text (env listing) "gemini-1.5-flash" (INSTRUCTION +:+ two_pages)
    (world (snd (extract_pdf (env listing) "https://arxiv.org/pdf/1234"
                   (before_iteration (env listing) 0 discovered))))
  = (Ok "A good paper.", 1) ∧
  ∃ s', cell10 (env listing) discovered = (Ok tt, s') ∧
        papers s' !! 0 = Some (<["summary" := "A good paper."]> Foo).
Proof.
  assert (papers discovered !! 0 = Some Foo) as H1 by (vm_compute; reflexivity).
  assert (Foo !! "url" = Some "https://arxiv.org/pdf/1234") as H2
    by (vm_compute; reflexivity).
  assert (extract_pdf (env listing) "https://arxiv.org/pdf/1234"
            (before_iteration (env listing) 0 discovered)
          = (Ok two_pages,
             snd (extract_pdf (env listing) "https://arxiv.org/pdf/1234"
                    (before_iteration (env listing) 0 discovered)))) as H3
    by (vm_compute; reflexivity).
  assert (generate_content_text (env listing) "gemini-1.5-flash"
            (INSTRUCTION +:+ two_pages)
            (world (snd (extract_pdf (env listing) "https://arxiv.org/pdf/1234"
                           (before_iteration (env listing) 0 discovered))))
          = (Ok "A good paper.", 1)) as H4 by (vm_compute; reflexivity).
  split; [exact H1|]. split; [exact H2|]. split; [exact H3|]. split; [exact H4|].
  exact (proj2 (summary_success (env listing) discovered 0 Foo _ _ _ _ _ H1 H2 H3 H4)).
Defined.

Lemma html_rendering_missing_key_witness :
  papers Scenario.half_done = [<["summary" := "A good paper."]> Foo] ++ Bar :: [Baz] ∧
  forallb finished [<["summary" := "A good paper."]> Foo] = true ∧
  first_missing ["url"; "title"; "summary"] Bar = Some "summary" ∧
  ∃ blocks s',
    cell12 (env listing) Scenario.half_done = (Raise (KeyError "summary"), s') ∧
    Forall2 html_block_of [<["summary" := "A good paper."]> Foo] blocks ∧
    files s' !! "papers.html"
    = Some (html_header (date_today (env listing) (world Scenario.half_done))
            +:+ String.concat "" blocks).
Proof.
  assert (forallb finished [<["summary" := "A good paper."]> Foo] = true) as H2
    by (vm_compute; reflexivity).
  assert (first_missing ["url"; "title"; "summary"] Bar = Some "summary") as H3
    by (vm_compute; reflexivity).
  split; [reflexivity|]. split; [exact H2|]. split; [exact H3|].
  exact (html_rendering_missing_key (env listing) Scenario.half_done
           [<["summary" := "A good paper."]> Foo] Bar [Baz] _ eq_refl H2 H3).
Defined.

Lemma markdown_display_missing_key_witness :
  papers Scenario.half_done = [<["summary" := "A good paper."]> Foo] ++ Bar :: [Baz] ∧
  forallb finished [<["summary" := "A good paper."]> Foo] = true ∧
  first_missing ["title"; "url"; "summary"] Bar = Some "summary" ∧
  ∃ records,
    cell14 Scenario.half_done
    = (Raise (KeyError "summary"),
       set_display_data (display_data Scenario.half_done ++ records) Scenario.half_done) ∧
    Forall2 markdown_record_of [<["summary" := "A good paper."]> Foo] records.
Proof.
  assert (forallb finished [<["summary" := "A good paper."]> Foo] = true) as H2
    by (vm_compute; reflexivity).
  assert (first_missing ["title"; "url"; "summary"] Bar = Some "summary") as H3
    by (vm_compute; reflexivity).
  split; [reflexivity|]. split; [exact H2|]. split; [exact H3|].
  exact (markdown_display_missing_key Scenario.half_done
           [<["summary" := "A good paper."]> Foo] Bar [Baz] _ eq_refl H2 H3).
Defined.

Lemma markdown_sink_accumulates_witness :
  forallb finished (papers summarized) = true ∧
  ∃ records,
    Forall2 markdown_record_of (papers summarized) records ∧
    cell14 summarized
    = (Ok tt, set_display_data (display_data summarized ++ records) summarized) ∧
    cell14 (snd (cell14 summarized))
    = (Ok tt, set_display_data (display_data summarized ++ records ++ records) summarized).
Proof.
  assert (forallb finished (papers summarized) = true) as H by (vm_compute; reflexivity).
  split; [exact H|]. exact (markdown_sink_accumulates summarized H).
Defined.

Lemma pipeline_runs_to_completion_witness :
  requests_get (env listing) BASE_URL (world fresh) = (Ok "<listing>", 0) ∧
  Forall (λ h3, is_Some (heading_anchor h3))
    (Bs4.find_all ["h3"] (html_parser (env listing) "<listing>")) ∧
  ∃ s1 s2 s3 s4,
    cell5 (env listing) fresh = (Ok tt, s1) ∧
    cell10 (env listing) s1 = (Ok tt, s2) ∧
    cell12 (env listing) s2 = (Ok tt, s3) ∧
    cell14 s3 = (Ok tt, s4) ∧
    forallb finished (papers s2) = true.
Proof.
  assert (requests_get (env listing) BASE_URL (world fresh) = (Ok "<listing>", 0)) as H1
    by reflexivity.
  assert (Forall (λ h3, is_Some (heading_anchor h3))
            (Bs4.find_all ["h3"] (html_parser (env listing) "<listing>"))) as H2
    by (apply (bool_decide_unpack _); vm_compute; exact I).
  split; [exact H1|]. split; [exact H2|].
  pose proof (pipeline_runs_to_completion (env listing) fresh "<listing>" 0 H1 H2)
    as (s1 & s2 & s3 & s4 & _ & _ & E5 & E10 & E12 & E14 & _ & Hfin & _).
  exists s1, s2, s3, s4. by split_and!.
Defined.

End MoreSampleRuns.
